(** * CleanSeam API: the scoring engine of [app/main.py]

    A shallow embedding of the scoring functions and of the two computing
    endpoints ([/analyze] and [/compare]), followed by the properties of the
    specification that were checked against it.

    Numbers.  Python's [float] is IEEE-754 binary64, and so is Rocq's
    primitive [float]: every arithmetic operation of the source is the
    primitive operation of the same name, rounding included.  Python's [int]
    is [Z].  The exact value of a float, when one is needed to state a
    property, is the rational [float_value].

    Strings.  A [str] is a [string]; each character is read as a code point
    below 256.  [lower] and [strip] follow Python on that range.

    Dictionaries.  The two module-level tables are association lists in
    source order, because [find_alternatives] iterates over [BRAND_DATA] and
    its result depends on that order.

    Exceptions.  A function that can raise returns a [result]. *)

From Stdlib Require Import ZArith QArith Qround Qminmax Lia List Bool Ascii String.
From Stdlib Require Import Sorted Permutation DecimalString.
From Stdlib Require Import Floats.
Import ListNotations.

Set Warnings "-inexact-float".

Local Open Scope string_scope.
Local Open Scope float_scope.

(* ================================================================== *)
(** * Exceptions *)

Inductive exn : Type :=
| HTTPException (status_code : Z) (detail : string)
| ZeroDivisionError
| ValueError
| OverflowError
| IndexError
| ValidationError.

Inductive result (A : Type) : Type :=
| Ok (a : A)
| Raise (e : exn).

Arguments Ok {A} a.
Arguments Raise {A} e.

Definition bind {A B : Type} (r : result A) (k : A -> result B) : result B :=
  match r with
  | Ok a => k a
  | Raise e => Raise e
  end.

Notation "x <- r ;; k" := (bind r (fun x => k))
  (at level 61, r at next level, right associativity).

(** A [for] loop that appends one computed entry per element. *)
Fixpoint for_each {A B : Type} (f : A -> result B) (l : list A) : result (list B) :=
  match l with
  | [] => Ok []
  | a :: l' => b <- f a ;; bs <- for_each f l' ;; Ok (b :: bs)
  end.

(* ================================================================== *)
(** * The Python primitives the program uses *)

Module Py.

(** ** Strings *)

(** [str.lower] on code points below 256: the upper-case letters are
  [A]-[Z] and U+00C0-U+00DE without the multiplication sign U+00D7. *)
Definition lower_char (c : ascii) : ascii :=
let n := N_of_ascii c in
if ((65 <=? n) && (n <=? 90) || (192 <=? n) && (n <=? 222) && negb (n =? 215))%N
then ascii_of_N (n + 32)
else c.

Fixpoint lower (s : string) : string :=
match s with
| EmptyString => EmptyString
| String c s' => String (lower_char c) (lower s')
end.

(** [str.isspace] on code points below 256. *)
Definition is_space (c : ascii) : bool :=
let n := N_of_ascii c in
((9 <=? n) && (n <=? 13) || (28 <=? n) && (n <=? 32) || (n =? 133) || (n =? 160))%N.

Fixpoint lstrip (s : string) : string :=
match s with
| EmptyString => EmptyString
| String c s' => if is_space c then lstrip s' else s
end.

Fixpoint rstrip (s : string) : string :=
match s with
| EmptyString => EmptyString
| String c s' =>
    match rstrip s' with
    | EmptyString => if is_space c then EmptyString else String c EmptyString
    | r => String c r
    end
end.

Definition strip (s : string) : string := rstrip (lstrip s).

(** [needle in hay]. *)
Fixpoint contains (needle hay : string) : bool :=
if prefix needle hay then true
else match hay with
     | EmptyString => false
     | String _ hay' => contains needle hay'
     end.

(** Truth value of an [Optional[str]]: [None] and [""] are false. *)
Definition truthy (o : option string) : bool :=
match o with
| None => false
| Some EmptyString => false
| Some _ => true
end.

(** [o or default] for an [Optional[str]]. *)
Definition or_else (o : option string) (default : string) : string :=
match o with
| Some (String c s) => String c s
| _ => default
end.

(** [d.get(k)] on a dictionary kept in insertion order. *)
Fixpoint dict_get {V : Type} (k : string) (d : list (string * V)) : option V :=
match d with
| [] => None
| (k', v) :: d' => if String.eqb k' k then Some v else dict_get k d'
end.

(** [str(n)] for an [int]. *)
Definition str_of_int (n : Z) : string := NilZero.string_of_int (Z.to_int n).

(** ** Floats *)

(** The two-argument [max] and [min]: the first argument is kept unless the
  second compares strictly greater (resp. smaller). *)
Definition max2 (a b : float) : float := if a <? b then b else a.
Definition min2 (a b : float) : float := if b <? a then b else a.

(** An integer as an unrounded binary float with exponent 0. *)
Definition SF_of_Z (z : Z) : spec_float :=
match z with
| Z0 => S754_zero false
| Zpos p => S754_finite false p 0
| Zneg p => S754_finite true p 0
end.

(** [float(n)]: the nearest binary64.  The integers that reach it are table
  constants and truncations of finite floats. *)
Definition float_of_int (z : Z) : float :=
SF2Prim (binary_normalize prec emax z 0 false).

(** [int(x)]: truncation toward zero; infinities and NaN raise. *)
Definition int_of_float (x : float) : result Z :=
match Prim2SF x with
| S754_zero _ => Ok 0%Z
| S754_finite s m e =>
    let v := if (0 <=? e)%Z then Z.shiftl (Zpos m) e else Z.shiftr (Zpos m) (- e) in
    Ok (if s then (- v)%Z else v)
| S754_infinity _ => Raise OverflowError
| S754_nan => Raise ValueError
end.

(** Nearest integer to [num / den], ties to the even one ([den > 0]). *)
Definition div_half_even (num den : Z) : Z :=
let q := (num / den)%Z in
match (2 * (num mod den) ?= den)%Z with
| Lt => q
| Gt => (q + 1)%Z
| Eq => if Z.even q then q else (q + 1)%Z
end.

(** The binary64 nearest to [k / 10^ndigits], with the sign [s]. *)
Definition decimal (s : bool) (k : Z) (ndigits : Z) : float :=
match k with
| Zpos p =>
    SF2Prim (SFdiv prec emax (S754_finite s p 0)
               (S754_finite false (Z.to_pos (10 ^ ndigits)) 0))
| _ => SF2Prim (S754_zero s)
end.

(** [round(x, ndigits)] for [ndigits >= 0]: the exact value of [x] is
  rounded to [ndigits] decimals, ties to even, and the decimal obtained is
  converted back to the nearest float.  Integral and non-finite values
  are returned unchanged. *)
Definition round (x : float) (ndigits : Z) : float :=
match Prim2SF x with
| S754_finite s m e =>
    if (0 <=? e)%Z then x
    else decimal s (div_half_even (Zpos m * 10 ^ ndigits) (2 ^ (- e))) ndigits
| _ => x
end.

(** [x / y] on floats. *)
Definition truediv (x y : float) : result float :=
match Prim2SF y with
| S754_zero _ => Raise ZeroDivisionError
| _ => Ok (x / y)
end.

(** [a / b] on two [int]s: the correctly rounded quotient.  The integers
    divided by the program are predicted wears, far from overflow. *)
Definition int_truediv (a b : Z) : result float :=
if (b =? 0)%Z then Raise ZeroDivisionError
else Ok (SF2Prim (SFdiv prec emax (SF_of_Z a) (SF_of_Z b))).

End Py.

(** The exact value of a finite float. *)
Definition float_value (x : float) : option Q :=
  match Prim2SF x with
  | S754_zero _ => Some 0%Q
  | S754_finite s m e =>
      let v := if (0 <=? e)%Z then inject_Z (Zpos m * 2 ^ e)
               else Qmake (Zpos m) (Z.to_pos (2 ^ (- e))) in
      Some (if s then Qopp v else v)
  | _ => None
  end.

Import Py.

(* ================================================================== *)
(** * Models *)

Record AnalyzeRequest : Type := {
  req_brand : option string;
  req_item_type : option string;
  req_price : float;
  req_currency : string;
  req_material_composition : option string;
  req_url : option string
}.

Record Factors : Type := {
  brand_score : float;
  material_score : float
}.

Record Alternative : Type := {
  alt_brand : string;
  alt_score : float;
  alt_typical_price_range : string
}.

Record AnalyzeResponse : Type := {
  quality_score : float;
  predicted_wears : Z;
  predicted_lifespan_months : Z;
  cost_per_wear : float;
  verdict : string;
  factors : Factors;
  brand_average : option float;
  category_average : option float;
  better_alternatives : list Alternative;
  waitlist_url : string
}.

(** One value of [BRAND_DATA]. *)
Record BrandRecord : Type := {
  name : string;
  tier : string;
  overall_score : float;
  description : string;
  category_scores : list (string * float);
  avg_lifespan_months : Z
}.

(** One value of [CATEGORY_AVERAGES]. *)
Record CategoryRecord : Type := {
  avg_score : float;
  avg_lifespan : Z;
  avg_wears : Z
}.

(* ================================================================== *)
(** * Brand database *)

Definition BRAND_DATA : list (string * BrandRecord) := [
  ("zara",
   {| name := "Zara"; tier := "fast_fashion"; overall_score := 3.5;
      description := "Fast fashion with trendy designs, variable quality";
      category_scores := [("jeans", 3.2); ("t-shirt", 2.8); ("dress", 3.5); ("jacket", 4.0)];
      avg_lifespan_months := 12 |});
  ("h&m",
   {| name := "H&M"; tier := "fast_fashion"; overall_score := 3.0;
      description := "Budget fast fashion, lower durability";
      category_scores := [("jeans", 2.8); ("t-shirt", 2.5); ("dress", 3.0); ("jacket", 3.5)];
      avg_lifespan_months := 10 |});
  ("uniqlo",
   {| name := "Uniqlo"; tier := "mid_range"; overall_score := 5.8;
      description := "Quality basics, good value for price";
      category_scores := [("jeans", 5.5); ("t-shirt", 6.0); ("jacket", 6.5); ("pants", 5.8)];
      avg_lifespan_months := 24 |});
  ("patagonia",
   {| name := "Patagonia"; tier := "premium"; overall_score := 8.2;
      description := "Durable outdoor wear, excellent longevity";
      category_scores := [("jacket", 9.0); ("t-shirt", 7.5); ("pants", 8.0); ("sweater", 8.5)];
      avg_lifespan_months := 60 |});
  ("shein",
   {| name := "Shein"; tier := "fast_fashion"; overall_score := 1.5;
      description := "Ultra-fast fashion, minimal durability";
      category_scores := [("jeans", 1.2); ("t-shirt", 1.0); ("dress", 1.8); ("jacket", 2.0)];
      avg_lifespan_months := 6 |});
  ("levis",
   {| name := "Levi's"; tier := "mid_range"; overall_score := 6.5;
      description := "Classic denim brand, good durability";
      category_scores := [("jeans", 7.5); ("jacket", 7.0); ("t-shirt", 5.0); ("shorts", 6.5)];
      avg_lifespan_months := 36 |});
  ("gap",
   {| name := "Gap"; tier := "mid_range"; overall_score := 4.5;
      description := "Mid-range basics, inconsistent quality";
      category_scores := [("jeans", 4.5); ("t-shirt", 4.0); ("sweater", 5.0); ("jacket", 5.0)];
      avg_lifespan_months := 18 |});
  ("cos",
   {| name := "COS"; tier := "mid_range"; overall_score := 6.0;
      description := "H&M premium line, better construction";
      category_scores := [("dress", 6.5); ("pants", 6.0); ("jacket", 6.5); ("t-shirt", 5.5)];
      avg_lifespan_months := 24 |})
].

Definition CATEGORY_AVERAGES : list (string * CategoryRecord) := [
  ("jeans",   {| avg_score := 5.2; avg_lifespan := 24; avg_wears := 100 |});
  ("t-shirt", {| avg_score := 4.5; avg_lifespan := 18; avg_wears := 60 |});
  ("jacket",  {| avg_score := 5.8; avg_lifespan := 36; avg_wears := 120 |});
  ("dress",   {| avg_score := 4.8; avg_lifespan := 20; avg_wears := 40 |});
  ("pants",   {| avg_score := 5.0; avg_lifespan := 24; avg_wears := 80 |});
  ("sweater", {| avg_score := 5.5; avg_lifespan := 30; avg_wears := 70 |});
  ("shirt",   {| avg_score := 5.0; avg_lifespan := 24; avg_wears := 60 |});
  ("shorts",  {| avg_score := 4.5; avg_lifespan := 24; avg_wears := 50 |});
  ("coat",    {| avg_score := 6.0; avg_lifespan := 48; avg_wears := 150 |})
].

(* ================================================================== *)
(** * Scoring logic *)

(** Score material composition (higher natural fiber = better). *)
Definition calculate_material_score (composition : option string) : float :=
  match composition with
  | None => 5.0
  | Some EmptyString => 5.0
  | Some composition =>
      let comp_lower := lower composition in
      let score := 5.0 in
      let score :=
        if contains "100% cotton" comp_lower || contains "100% wool" comp_lower
           || contains "100% linen" comp_lower
        then score + 3.0
        else if contains "cotton" comp_lower then score + 1.5
        else if contains "wool" comp_lower || contains "linen" comp_lower
        then score + 2.0
        else score in
      let score := if contains "polyester" comp_lower then score - 1.5 else score in
      let score := if contains "acrylic" comp_lower then score - 2.0 else score in
      let score :=
        if contains "viscose" comp_lower || contains "rayon" comp_lower
        then score - 0.5 else score in
      max2 1.0 (min2 10.0 score)
  end.

(** [brand_data["category_scores"].get(category, brand_data["overall_score"])] *)
Definition category_score_of (brand_data : BrandRecord) (category : string) : float :=
  match dict_get category (category_scores brand_data) with
  | Some s => s
  | None => overall_score brand_data
  end.

(** Get brand score for category, returns (score, brand_data). *)
Definition get_brand_score (brand category : string) : float * option BrandRecord :=
  let brand_key := strip (lower brand) in
  match dict_get brand_key BRAND_DATA with
  | None => (5.0, None)
  | Some brand_data => (category_score_of brand_data category, Some brand_data)
  end.

(** [CATEGORY_AVERAGES.get(category, {"avg_wears": 60})["avg_wears"]] *)
Definition base_wears_of (category : string) : Z :=
  match dict_get category CATEGORY_AVERAGES with
  | Some category_data => avg_wears category_data
  | None => 60%Z
  end.

(** [CATEGORY_AVERAGES.get(category, {"avg_lifespan": 18})["avg_lifespan"]] *)
Definition base_lifespan_of (category : string) : Z :=
  match dict_get category CATEGORY_AVERAGES with
  | Some category_data => avg_lifespan category_data
  | None => 18%Z
  end.

(** Estimate wears based on quality and category baseline. *)
Definition calculate_predicted_wears (quality_score : float) (category : string) : result Z :=
  let base_wears := base_wears_of category in
  let multiplier := quality_score / 5.0 in
  int_of_float (float_of_int base_wears * multiplier).

(** Estimate lifespan in months. *)
Definition calculate_lifespan (quality_score : float) (category : string) : result Z :=
  let base_lifespan := base_lifespan_of category in
  let multiplier := quality_score / 5.0 in
  int_of_float (float_of_int base_lifespan * multiplier).

(** Generate human-readable verdict. *)
Definition generate_verdict (quality_score cost_per_wear category_avg : float) : string :=
  let quality_desc :=
    if 7.5 <=? quality_score then "Excellent quality"
    else if 5.5 <=? quality_score then "Good quality"
    else if 4.0 <=? quality_score then "Average quality"
    else if 2.5 <=? quality_score then "Below average quality"
    else "Poor quality" in
  let comparison :=
    if quality_score <? category_avg - 1.0 then "Below average for this category."
    else if category_avg + 1.0 <? quality_score then "Above average for this category."
    else "Average for this category." in
  let value_note :=
    if cost_per_wear <? 1.0 then "Good value per wear."
    else if cost_per_wear <? 2.0 then "Reasonable value."
    else "Consider if you'll wear it enough to justify the cost." in
  (quality_desc ++ ". " ++ comparison ++ " " ++ value_note)%string.

(** Get typical price range for tier. *)
Definition get_price_range (tier : string) : string :=
  let ranges := [
    ("fast_fashion", "$10-50");
    ("budget", "$15-40");
    ("mid_range", "$40-100");
    ("premium", "$80-250");
    ("luxury", "$200+")
  ] in
  match dict_get tier ranges with
  | Some r => r
  | None => "$30-80"
  end.

(** [l.sort(key=key, reverse=True)]: the stable sort into descending key
    order, entries with equal keys staying in their original order.  The
    keys sorted by the program are table scores, on which [<] is a total
    order. *)
Section Sort.
Context {A : Type} (key : A -> float).

Fixpoint insert_desc (x : A) (l : list A) : list A :=
  match l with
  | [] => [x]
  | y :: l' => if key x <? key y then y :: insert_desc x l' else x :: l
  end.

Definition sort_desc (l : list A) : list A := fold_right insert_desc [] l.
End Sort.

(** The body of the loop of [find_alternatives] for one table entry. *)
Definition alternative_of (brand category : string) (current_score : float)
    (entry : string * BrandRecord) : list Alternative :=
  let '(brand_key, brand_data) := entry in
  if String.eqb brand_key (lower brand) then []
  else
    let cat_score := category_score_of brand_data category in
    if current_score + 0.5 <? cat_score
    then [ {| alt_brand := name brand_data;
              alt_score := cat_score;
              alt_typical_price_range := get_price_range (tier brand_data) |} ]
    else [].

(** Find better alternatives in similar price range. *)
Definition find_alternatives (brand category : string) (price current_score : float)
    : list Alternative :=
  let alternatives := flat_map (alternative_of brand category current_score) BRAND_DATA in
  let alternatives := sort_desc alt_score alternatives in
  firstn 3 alternatives.

(* ================================================================== *)
(** * Endpoints *)

(** The weighted sum of [analyze_item], with the source's parentheses. *)
Definition weighted_quality (brand_score material_score : float) : float :=
  (brand_score * 0.5) + (material_score * 0.3) + (brand_score * 0.2).

(** [round(min(10.0, max(1.0, quality_score)), 1)] *)
Definition publish_quality (quality_score : float) : float :=
  round (min2 10.0 (max2 1.0 quality_score)) 1.

(** The field constraint [Field(..., ge=0, le=10)] of [AnalyzeResponse]. *)
Definition validate_response (r : AnalyzeResponse) : result AnalyzeResponse :=
  if (0 <=? quality_score r) && (quality_score r <=? 10) then Ok r
  else Raise ValidationError.

(** [POST /analyze]: analyze a clothing item for quality and value. *)
Definition analyze_item (request : AnalyzeRequest) : result AnalyzeResponse :=
  if negb (truthy (req_brand request)) && negb (truthy (req_url request))
  then Raise (HTTPException 400 "Brand or URL is required")
  else if negb (truthy (req_item_type request)) && negb (truthy (req_url request))
  then Raise (HTTPException 400 "Item type is required when not providing URL")
  else
    let brand := or_else (req_brand request) "Unknown" in
    let item_type := lower (or_else (req_item_type request) "t-shirt") in
    let '(b_score, brand_data) := get_brand_score brand item_type in
    let m_score := calculate_material_score (req_material_composition request) in
    let q := weighted_quality b_score m_score in
    let q := publish_quality q in
    wears <- calculate_predicted_wears q item_type ;;
    lifespan <- calculate_lifespan q item_type ;;
    cpw <- truediv (req_price request) (float_of_int wears) ;;
    let cpw := round cpw 2 in
    let category_avg :=
      match dict_get item_type CATEGORY_AVERAGES with
      | Some category_data => avg_score category_data
      | None => 5.0
      end in
    let v := generate_verdict q cpw category_avg in
    let alternatives := find_alternatives brand item_type (req_price request) q in
    validate_response
      {| quality_score := q;
         predicted_wears := wears;
         predicted_lifespan_months := lifespan;
         cost_per_wear := cpw;
         verdict := v;
         factors := {| brand_score := b_score; material_score := m_score |};
         brand_average := option_map overall_score brand_data;
         category_average := Some category_avg;
         better_alternatives := alternatives;
         waitlist_url := "https://cleanseam.ai/join" |}.

(** One entry of the [brands] list returned by [/compare]. *)
Record ComparedBrand : Type := {
  cb_name : string;
  cb_score : float;
  cb_typical_price : string;
  cb_predicted_wears : Z
}.

Record CompareResponse : Type := {
  cmp_category : string;
  cmp_brands : list ComparedBrand;
  cmp_recommendation : string
}.

(** The body of the loop of [compare_brands]. *)
Definition compare_entry (category brand_name : string) : result ComparedBrand :=
  let '(score, brand_data) := get_brand_score brand_name category in
  wears <- calculate_predicted_wears score category ;;
  Ok {| cb_name := match brand_data with Some d => name d | None => brand_name end;
        cb_score := score;
        cb_typical_price :=
          match brand_data with Some d => get_price_range (tier d) | None => "Unknown" end;
        cb_predicted_wears := wears |}.

(** [int(((best_wears / worst_wears) - 1) * 100)] *)
Definition improvement_of (best_wears worst_wears : Z) : result Z :=
  ratio <- int_truediv best_wears worst_wears ;;
  int_of_float ((ratio - 1.0) * 100.0).

(** [GET /compare]: compare quality between brands for a category.
    [results[0]] and [results[-1]] are read from a list that has as many
    entries as [brands], so at least two. *)
Definition compare_brands (brands : list string) (category : string)
    : result CompareResponse :=
  if (List.length brands <? 2)%nat
  then Raise (HTTPException 400 "Need at least 2 brands to compare")
  else
    results <- for_each (compare_entry category) brands ;;
    let results := sort_desc cb_score results in
    match results with
    | [] => Raise IndexError
    | best :: _ =>
        let worst := last results best in
        improvement <- improvement_of (cb_predicted_wears best) (cb_predicted_wears worst) ;;
        let recommendation :=
          (cb_name best ++ " offers best value with " ++ str_of_int improvement
           ++ "% more predicted wears")%string in
        Ok {| cmp_category := category;
              cmp_brands := results;
              cmp_recommendation := recommendation |}
    end.

(* ================================================================== *)
(** * The specification's reading of the scoring rules

    These definitions follow the wording of the specification, in exact
    rational arithmetic; the theorems below compare them with the program. *)

(** ** Material scorer (section 4.1) *)
Module MaterialSpec.
Local Open Scope Q_scope.

(** Case-insensitive substring test; the phrases are lower-case. *)
Definition mentions (text phrase : string) : bool :=
  contains phrase (lower text).

Definition mentions_any (text : string) (phrases : list string) : bool :=
  existsb (mentions text) phrases.

(** The chain of bonus tiers: only the first matching tier counts. *)
Definition bonus_chain : list (list string * Q) :=
  [ (["100% cotton"; "100% wool"; "100% linen"]%string, 3);
    (["cotton"]%string, 3 # 2);
    (["wool"; "linen"]%string, 2) ].

(** The penalties: every matching rule counts. *)
Definition penalty_rules : list (list string * Q) :=
  [ (["polyester"]%string, 3 # 2);
    (["acrylic"]%string, 2);
    (["viscose"; "rayon"]%string, 1 # 2) ].

Definition bonus (text : string) : Q :=
  match find (fun tier => mentions_any text (fst tier)) bonus_chain with
  | Some tier => snd tier
  | None => 0
  end.

Definition penalty (text : string) : Q :=
  fold_right Qplus 0
    (map snd (filter (fun rule => mentions_any text (fst rule)) penalty_rules)).

Definition clamp (lo hi x : Q) : Q := Qmax lo (Qmin hi x).

Definition score (composition : option string) : Q :=
  match composition with
  | None => 5
  | Some EmptyString => 5
  | Some text => clamp 1 10 (5 + bonus text - penalty text)
  end.
End MaterialSpec.

(** ** Quality aggregator (section 4.3) *)
Module QualitySpec.
(** The weighted sum of the program, read in exact arithmetic. *)
Definition exact_weighted (b m : Q) : Q :=
  (b * (5 # 10) + m * (3 # 10) + b * (2 # 10))%Q.

(** The simplified form of the specification, in exact arithmetic ... *)
Definition exact_simplified (b m : Q) : Q :=
  (b * (7 # 10) + m * (3 # 10))%Q.

(** ... and evaluated in binary64. *)
Definition simplified_quality (b m : float) : float :=
  (b * 0.7) + (m * 0.3).

(** The binary64 nearest to [k / 10]: a number with one decimal digit. *)
Definition tenth (k : Z) : float := decimal false k 1.
End QualitySpec.

(** ** Rounding of exact values *)

(** Truncation toward zero. *)
Definition Qtrunc (v : Q) : Z :=
  if Qle_bool 0 v then Qfloor v else Qceiling v.

(** The nearest integer, ties to even: Python's one-argument [round]. *)
Definition Qnearest (v : Q) : Z := div_half_even (Qnum v) (Zpos (Qden v)).

(** [floor(x)] for a float. *)
Definition float_floor (x : float) : option Z := option_map Qfloor (float_value x).

(** [x] is finite and its exact value is [q]. *)
Definition agrees (x : float) (q : Q) : bool :=
  match float_value x with
  | Some v => Qeq_bool v q
  | None => false
  end.

(** ** What the specification says of the endpoints *)

(** Section 4.8: [N = round(((best_wears / worst_wears) - 1) * 100)]. *)
Definition rounded_improvement (best_wears worst_wears : Z) : option Z :=
  match int_truediv best_wears worst_wears with
  | Ok ratio => option_map Qnearest (float_value ((ratio - 1.0) * 100.0))
  | Raise _ => None
  end.

(** Section 6: [/analyze] fails when both fields of a pair are absent. *)
Definition both_absent (request : AnalyzeRequest) : Prop :=
  (req_brand request = None /\ req_url request = None)
  \/ (req_item_type request = None /\ req_url request = None).

(** What [analyze_item] tests: both fields of a pair absent or empty. *)
Definition both_missing (request : AnalyzeRequest) : bool :=
  negb (truthy (req_brand request)) && negb (truthy (req_url request))
  || negb (truthy (req_item_type request)) && negb (truthy (req_url request)).

Definition is_client_error {A : Type} (r : result A) : Prop :=
  exists detail, r = Raise (HTTPException 400 detail).

(** Orders on the entries of a ranking. *)
Definition score_ge {A : Type} (key : A -> float) (a b : A) : Prop :=
  (key b <=? key a) = true.

Definition score_gt {A : Type} (key : A -> float) (a b : A) : Prop :=
  (key b <? key a) = true.

(** ** Finite enumerations used by the proofs *)

(** Every score the brand scorer can return. *)
Definition brand_scores : list float :=
  5.0 :: flat_map (fun entry => overall_score (snd entry)
                                :: map snd (category_scores (snd entry))) BRAND_DATA.

(** Every wear baseline the predictor can use. *)
Definition wear_baselines : list Z :=
  60%Z :: map (fun entry => avg_wears (snd entry)) CATEGORY_AVERAGES.

Definition lifespan_baselines : list Z :=
  18%Z :: map (fun entry => avg_lifespan (snd entry)) CATEGORY_AVERAGES.

(** The one-decimal numbers from 1.0 to 10.0. *)
Definition tenths : list float :=
  map (fun n => QualitySpec.tenth (Z.of_nat n + 10)) (seq 0 91).

Definition for_both (P : bool -> bool) : bool := P true && P false.

(** The order on two floats is decided one way or the other (no NaN). *)
Definition comparable (x y : float) : bool :=
  if x <? y then x <=? y else y <=? x.

Definition is_ok {A : Type} (r : result A) : bool :=
  match r with Ok _ => true | Raise _ => false end.


(** ** Checks evaluated over the enumerations *)

Definition nonzero (x : float) : bool :=
  match Prim2SF x with
  | S754_zero _ => false
  | _ => true
  end.

(** With quality [q] and the two baselines, the predictor returns, at least
    8 wears, and a lifespan. *)
Definition predictor_ok (q : float) (base_wears base_lifespan : Z) : bool :=
  match int_of_float (float_of_int base_wears * (q / 5.0)) with
  | Ok wears =>
      (8 <=? wears)%Z && nonzero (float_of_int wears)
      && is_ok (int_of_float (float_of_int base_lifespan * (q / 5.0)))
  | Raise _ => false
  end.

(** The request of the end-to-end example of section 8. *)
Definition patagonia_jacket : AnalyzeRequest :=
  {| req_brand := Some "Patagonia";
     req_item_type := Some "jacket";
     req_price := 120;
     req_currency := "USD";
     req_material_composition := Some "100% cotton";
     req_url := None |}.

(** A request whose brand is present but empty. *)
Definition empty_brand_request : AnalyzeRequest :=
  {| req_brand := Some "";
     req_item_type := Some "jeans";
     req_price := 40;
     req_currency := "USD";
     req_material_composition := None;
     req_url := None |}.

(** [x] is finite and not negative. *)
Definition nonneg_finite (x : float) : bool :=
  match float_value x with
  | Some v => Qle_bool 0 v
  | None => false
  end.

(** With scores [s1] and [s2] and one wear baseline, both predictions
    return and so does the improvement of the first over the second. *)
Definition improvement_ok (s1 s2 : float) (base_wears : Z) : bool :=
  match int_of_float (float_of_int base_wears * (s1 / 5.0)),
        int_of_float (float_of_int base_wears * (s2 / 5.0)) with
  | Ok w1, Ok w2 => is_ok (improvement_of w1 w2)
  | _, _ => false
  end.

(** Section 4.8, scoring of one brand: the entry carries the score of the
    brand scorer, the name of the brand record (the name given when there is
    none) and the wears predicted from that score. *)
Definition scored_as (category brand_name : string) (entry : ComparedBrand) : Prop :=
  cb_score entry = fst (get_brand_score brand_name category)
  /\ cb_name entry = match snd (get_brand_score brand_name category) with
                     | Some record => name record
                     | None => brand_name
                     end
  /\ calculate_predicted_wears (cb_score entry) category
     = Ok (cb_predicted_wears entry).



(* ================================================================== *)
(** * The other endpoints *)

Record BrandProfile : Type := {
  bp_name : string;
  bp_overall_score : float;
  bp_tier : string;
  bp_description : string;
  bp_category_scores : list (string * float);
  bp_avg_lifespan_months : Z;
  bp_data_confidence : string
}.

(** [GET /brand/{brand_name}]: get quality profile for a brand. *)
Definition get_brand (brand_name : string) : result BrandProfile :=
  let brand_key := strip (lower brand_name) in
  match dict_get brand_key BRAND_DATA with
  | None =>
      Raise (HTTPException 404 ("Brand '" ++ brand_name ++ "' not found")%string)
  | Some brand_data =>
      Ok {| bp_name := name brand_data;
            bp_overall_score := overall_score brand_data;
            bp_tier := tier brand_data;
            bp_description := description brand_data;
            bp_category_scores := category_scores brand_data;
            bp_avg_lifespan_months := avg_lifespan_months brand_data;
            bp_data_confidence := "medium" |}
  end.

(** One entry of the list returned by [/categories]. *)
Record CategoryEntry : Type := {
  ce_name : string;
  ce_avg_score : float;
  ce_avg_lifespan_months : Z
}.

(** [GET /categories]: list supported product categories. *)
Definition list_categories : list CategoryEntry :=
  map (fun entry =>
         let '(cat, data) := entry in
         {| ce_name := cat;
            ce_avg_score := avg_score data;
            ce_avg_lifespan_months := avg_lifespan data |})
      CATEGORY_AVERAGES.

(** ** Further enumerations and checks *)

Definition float_in (x : float) (l : list float) : bool :=
  existsb (PrimFloat.Leibniz.eqb x) l.

(** Every value the material scorer can return. *)
Definition material_scores : list float :=
  [1.0; 1.5; 2.5; 3.0; 3.5; 4.0; 4.5; 5.0; 5.5; 6.0; 6.5; 7.0; 7.5; 8.0].

(** Every quality score [/analyze] can publish. *)
Definition reachable_qualities : list float :=
  flat_map (fun b => map (fun m => publish_quality (weighted_quality b m)) material_scores)
           brand_scores.

(** Every category average [/analyze] can report. *)
Definition category_average_values : list float :=
  5.0 :: map (fun entry => avg_score (snd entry)) CATEGORY_AVERAGES.

(** The average [/analyze] reports for an item type. *)
Definition category_average_of (item_type : string) : float :=
  match dict_get item_type CATEGORY_AVERAGES with
  | Some category_data => avg_score category_data
  | None => 5.0
  end.

(** The indices [k] of the published scores [k / 10]. *)
Definition score_indices : list Z := map (fun n => (Z.of_nat n + 10)%Z) (seq 0 91).

(** The price ranges of the tiers that occur in the brand table. *)
Definition brand_price_ranges : list string := ["$10-50"; "$40-100"; "$80-250"].

(** Predictions for one quality and one pair of baselines stay within
    the given bounds. *)
Definition predictions_within (lo_w hi_w lo_l hi_l : Z) (q : float)
    (base_wears base_lifespan : Z) : bool :=
  match int_of_float (float_of_int base_wears * (q / 5.0)),
        int_of_float (float_of_int base_lifespan * (q / 5.0)) with
  | Ok w, Ok l => ((lo_w <=? w) && (w <=? hi_w) && (lo_l <=? l) && (l <=? hi_l))%Z
  | _, _ => false
  end.

(** A request with the defaults of [analyze_item] written out, no url and
    the default currency. *)
Definition explicit_request (request : AnalyzeRequest) : AnalyzeRequest :=
  {| req_brand := Some (or_else (req_brand request) "Unknown");
     req_item_type := Some (or_else (req_item_type request) "t-shirt");
     req_price := req_price request;
     req_currency := "USD";
     req_material_composition := req_material_composition request;
     req_url := None |}.

(** A request that gives a url and nothing else about the item. *)
Definition url_only_request : AnalyzeRequest :=
  {| req_brand := None;
     req_item_type := None;
     req_price := 25;
     req_currency := "EUR";
     req_material_composition := None;
     req_url := Some "https://shop.example/item/42" |}.

(** [int(base * (quality_score / 5.0))], the computation shared by the two
    predictors, as a number: -1 stands for a conversion that raises. *)
Definition scaled (base : Z) (q : float) : Z :=
  match int_of_float (float_of_int base * (q / 5.0)) with
  | Ok n => n
  | Raise _ => (-1)%Z
  end.

(** Every baseline the two predictors can read, defaults included. *)
Definition all_baselines : list Z := wear_baselines ++ lifespan_baselines.

(** Wool jeans of a brand that is not in the table. *)
Definition wool_jeans_request : AnalyzeRequest :=
  {| req_brand := Some "Acme";
     req_item_type := Some "jeans";
     req_price := 60;
     req_currency := "USD";
     req_material_composition := Some "wool";
     req_url := None |}.

(** Patagonia jeans, the item type in capitals and no material given. *)
Definition patagonia_jeans_request : AnalyzeRequest :=
  {| req_brand := Some "Patagonia";
     req_item_type := Some "JEANS";
     req_price := 90;
     req_currency := "USD";
     req_material_composition := None;
     req_url := None |}.

(** The predictor formula as the specification writes it,
    floor(baseline * quality_score / 5.0), in exact arithmetic. *)
Module PredictorSpec.
Definition exact_floor (baseline : Z) (quality_score : Q) : Z :=
  Qfloor (inject_Z baseline * quality_score / 5).
End PredictorSpec.

(** Uniqlo jeans, no material given. *)
Definition uniqlo_jeans_request : AnalyzeRequest :=
  {| req_brand := Some "Uniqlo";
     req_item_type := Some "jeans";
     req_price := 40;
     req_currency := "USD";
     req_material_composition := None;
     req_url := None |}.

(** A Shein t-shirt with every penalised fibre. *)
Definition shein_tshirt_request : AnalyzeRequest :=
  {| req_brand := Some "Shein";
     req_item_type := Some "t-shirt";
     req_price := 5;
     req_currency := "USD";
     req_material_composition := Some "polyester, acrylic and rayon";
     req_url := None |}.
(* ================================================================== *)
(** * Basic facts *)

Lemma for_both_spec (P : bool -> bool) : for_both P = true -> forall b, P b = true.
Proof.
  unfold for_both. intros H b. apply andb_true_iff in H.
  destruct b; tauto.
Qed.

(** Abstract every substring test on [text] into a boolean flag ... *)
Ltac flags_of text :=
  repeat match goal with
         | |- context [contains ?p text] => generalize (contains p text); intro
         end.

(** ... and settle the goal by evaluating it on every combination. *)
Ltac enumerate_flags :=
  repeat match goal with
         | b : bool |- _ = true => revert b; apply for_both_spec
         end;
  vm_compute; reflexivity.

Lemma dict_get_In {V : Type} (k : string) (d : list (string * V)) (v : V) :
  dict_get k d = Some v -> In (k, v) d.
Proof.
  induction d as [|[k' v'] d IH]; simpl; [discriminate|].
  destruct (String.eqb_spec k' k) as [->|_].
  - intros [= ->]. now left.
  - intro H. right. now apply IH.
Qed.

Lemma dict_get_None {V : Type} (k : string) (d : list (string * V)) :
  ~ In k (map fst d) -> dict_get k d = None.
Proof.
  induction d as [|[k' v'] d IH]; simpl; [reflexivity|].
  intro H. destruct (String.eqb_spec k' k) as [->|_]; [tauto|].
  apply IH. tauto.
Qed.

Lemma forallb_In {A : Type} (P : A -> bool) (l : list A) (x : A) :
  forallb P l = true -> In x l -> P x = true.
Proof. intros H Hx. rewrite forallb_forall in H. now apply H. Qed.

(** ** The exact value of a float and its truncation *)

Lemma Some_eq {A : Type} (a b : A) : Some a = Some b -> a = b.
Proof. now intros [= ->]. Qed.

Lemma Qfloor_Qmake (n : Z) (d : positive) : Qfloor (n # d) = (n / Zpos d)%Z.
Proof. reflexivity. Qed.

Lemma Qtrunc_nonneg (v : Q) : (0 <= v)%Q -> Qtrunc v = Qfloor v.
Proof. unfold Qtrunc. intro H. apply Qle_bool_iff in H. now rewrite H. Qed.

Lemma pow2_pos (n : Z) : (0 <= n -> 0 < 2 ^ n)%Z.
Proof. intro H. apply Z.pow_pos_nonneg; lia. Qed.

Lemma Qtrunc_pos (n : Z) (d : positive) :
  (0 <= n)%Z -> Qtrunc (n # d) = (n / Zpos d)%Z.
Proof.
  intro H. unfold Qtrunc.
  replace (Qle_bool 0 (n # d)) with true; [reflexivity|].
  symmetry. apply Qle_bool_iff. unfold Qle. cbn [Qnum Qden]. lia.
Qed.

Lemma Qtrunc_neg (n : Z) (d : positive) :
  (0 < n)%Z -> Qtrunc (- (n # d)) = (- (n / Zpos d))%Z.
Proof.
  intro H. unfold Qtrunc.
  replace (Qle_bool 0 (- (n # d))) with false.
  - unfold Qceiling. now rewrite Qopp_involutive.
  - symmetry. apply not_true_is_false. rewrite Qle_bool_iff.
    unfold Qle, Qopp. cbn [Qnum Qden]. lia.
Qed.

(** [int(x)] is the truncation of the exact value of [x]. *)
Lemma int_of_float_trunc (x : float) (v : Q) :
  float_value x = Some v -> int_of_float x = Ok (Qtrunc v).
Proof.
  unfold float_value, int_of_float.
  destruct (Prim2SF x) as [s|s| |s m e]; try discriminate.
  - intros [= <-]. reflexivity.
  - destruct (Z.leb_spec 0 e) as [He|He]; intros H; apply Some_eq in H; subst v.
    + rewrite Z.shiftl_mul_pow2 by assumption.
      assert (Hp : (0 < Zpos m * 2 ^ e)%Z) by (apply Z.mul_pos_pos; [lia | now apply pow2_pos]).
      unfold inject_Z.
      destruct s; [rewrite Qtrunc_neg by lia | rewrite Qtrunc_pos by lia];
        now rewrite Z.div_1_r.
    + rewrite Z.shiftr_div_pow2 by lia.
      assert (Hp : (0 < 2 ^ (- e))%Z) by (apply pow2_pos; lia).
      assert (Hd : Zpos (Z.to_pos (2 ^ (- e))) = (2 ^ (- e))%Z) by (apply Z2Pos.id; exact Hp).
      destruct s; [rewrite Qtrunc_neg by lia | rewrite Qtrunc_pos by lia];
        now rewrite Hd.
Qed.

(** ** One-decimal rounding of a clamped score *)

Lemma digits2_pos_bounds (m : positive) :
  (2 ^ (Zpos (digits2_pos m) - 1) <= Zpos m < 2 ^ Zpos (digits2_pos m))%Z.
Proof.
  induction m as [m IH|m IH|]; cbn [digits2_pos].
  - rewrite Pos2Z.inj_succ.
    replace (Z.succ (Zpos (digits2_pos m)) - 1)%Z with (Z.succ (Zpos (digits2_pos m) - 1))%Z by lia.
    rewrite !Z.pow_succ_r by lia. lia.
  - rewrite Pos2Z.inj_succ.
    replace (Z.succ (Zpos (digits2_pos m)) - 1)%Z with (Z.succ (Zpos (digits2_pos m) - 1))%Z by lia.
    rewrite !Z.pow_succ_r by lia. lia.
  - cbn. lia.
Qed.

(** Rounding to nearest stays between two integer bounds. *)
Lemma div_half_even_bounds (num den a b : Z) :
  (0 < den)%Z -> (a * den <= num)%Z -> (num <= b * den)%Z ->
  (a <= div_half_even num den <= b)%Z.
Proof.
  intros Hden Ha Hb. unfold div_half_even.
  pose proof (Z.div_mod num den ltac:(lia)) as Hdm.
  pose proof (Z.mod_pos_bound num den Hden) as Hr.
  set (q := (num / den)%Z) in *. set (r := (num mod den)%Z) in *.
  assert (Hqa : (a <= q)%Z) by nia.
  assert (Hqb : (q <= b)%Z) by nia.
  destruct (Z.eq_dec q b) as [Heq|Hne].
  - assert (Hr0 : r = 0%Z) by nia.
    rewrite Hr0. change (2 * 0)%Z with 0%Z.
    destruct (Z.compare_spec 0 den); lia.
  - destruct (Z.compare (2 * r) den); [destruct (Z.even q)| |]; lia.
Qed.

Lemma clamp_cases (x : float) :
  min2 10.0 (max2 1.0 x) = 1.0 \/ min2 10.0 (max2 1.0 x) = 10.0
  \/ ((1.0 <? min2 10.0 (max2 1.0 x)) = true /\ (min2 10.0 (max2 1.0 x) <? 10.0) = true).
Proof.
  unfold max2. destruct (1.0 <? x) eqn:H1.
  - unfold min2. destruct (x <? 10.0) eqn:H2; auto.
  - left. vm_compute. reflexivity.
Qed.

Ltac eval_float_in c H :=
  let v := eval vm_compute in c in change c with v in H.

(** The order of two positive finite floats in canonical form. *)
Lemma SFltb_finite (m1 m2 : positive) (e1 e2 : Z) :
  SFltb (S754_finite false m1 e1) (S754_finite false m2 e2) = true ->
  (e1 < e2 \/ e1 = e2 /\ Zpos m1 < Zpos m2)%Z.
Proof.
  unfold SFltb, SFcompare.
  change (PosDef.Pos.compare_cont Eq m1 m2) with (Pos.compare m1 m2).
  destruct (Z.compare_spec e1 e2); try discriminate; [right|left; assumption].
  split; [assumption|].
  destruct (Pos.compare_spec m1 m2); try discriminate. lia.
Qed.

Lemma round_between_1_and_10 (y : float) :
  (1.0 <? y) = true -> (y <? 10.0) = true ->
  exists k, (10 <= k <= 100)%Z /\ round y 1 = QualitySpec.tenth k.
Proof.
  intros H1 H10. rewrite ltb_spec in H1, H10.
  pose proof (Prim2SF_valid y) as Hv.
  eval_float_in (Prim2SF 1.0) H1. eval_float_in (Prim2SF 10.0) H10.
  unfold round. destruct (Prim2SF y) as [s|s| |s m e]; try discriminate.
  - destruct s; discriminate.
  - destruct s; [discriminate|].
    apply SFltb_finite in H1, H10.
    cbn [valid_binary] in Hv. unfold bounded, canonical_mantissa in Hv.
    apply andb_true_iff in Hv. destruct Hv as [Hc _].
    apply Z.eqb_eq in Hc. unfold fexp, emin, emax, prec in Hc.
    change IntDef.Z.max with Z.max in Hc.
    assert (He : (e = -52 \/ e = -51 \/ e = -50
                  \/ e = -49 /\ Zpos m < 5629499534213120)%Z) by lia.
    assert (Hd : Zpos (digits2_pos m) = 53%Z).
    { lia. }
    pose proof (digits2_pos_bounds m) as Hm.
    rewrite Hd in Hm. change (2 ^ (53 - 1))%Z with 4503599627370496%Z in Hm.
    change (2 ^ 53)%Z with 9007199254740992%Z in Hm.
    change (10 ^ 1)%Z with 10%Z.
    assert (Hneg : (0 <=? e)%Z = false) by (apply Z.leb_gt; lia).
    rewrite Hneg. unfold QualitySpec.tenth.
    exists (div_half_even (Zpos m * 10) (2 ^ (- e))).
    split; [|reflexivity].
    apply div_half_even_bounds; destruct He as [->|[->|[->|[-> He]]]];
      cbn [Z.opp];
      try (change (2 ^ 52)%Z with 4503599627370496%Z);
      try (change (2 ^ 51)%Z with 2251799813685248%Z);
      try (change (2 ^ 50)%Z with 1125899906842624%Z);
      try (change (2 ^ 49)%Z with 562949953421312%Z); lia.
Qed.

(** The published quality score is one of the numbers 1.0, 1.1, ..., 10.0. *)
Lemma publish_quality_tenth (x : float) :
  exists k, (10 <= k <= 100)%Z /\ publish_quality x = QualitySpec.tenth k.
Proof.
  unfold publish_quality.
  destruct (clamp_cases x) as [->|[->|[H1 H10]]].
  - exists 10%Z. split; [lia|]. vm_compute. reflexivity.
  - exists 100%Z. split; [lia|]. vm_compute. reflexivity.
  - now apply round_between_1_and_10.
Qed.

Lemma tenth_In (k : Z) : (10 <= k <= 100)%Z -> In (QualitySpec.tenth k) tenths.
Proof.
  intro H. unfold tenths.
  replace k with (Z.of_nat (Z.to_nat (k - 10)) + 10)%Z by lia.
  apply (in_map (fun n => QualitySpec.tenth (Z.of_nat n + 10))).
  apply in_seq. lia.
Qed.

Lemma publish_quality_In (x : float) : In (publish_quality x) tenths.
Proof.
  destruct (publish_quality_tenth x) as (k & Hk & ->). now apply tenth_In.
Qed.

(* ================================================================== *)
(** * Material scorer *)

Lemma material_score_table (composition : option string) :
  agrees (calculate_material_score composition) (MaterialSpec.score composition)
  && (1.0 <=? calculate_material_score composition)
  && (calculate_material_score composition <=? 10.0) = true.
Proof.
  destruct composition as [[|c s]|];
    [vm_compute; reflexivity | | vm_compute; reflexivity].
  unfold calculate_material_score, MaterialSpec.score.
  unfold MaterialSpec.bonus, MaterialSpec.penalty, MaterialSpec.mentions_any,
    MaterialSpec.mentions.
  generalize (lower (String c s)); intro text.
  cbn [MaterialSpec.bonus_chain MaterialSpec.penalty_rules find filter existsb fst snd map].
  flags_of text. clear text c s.
  enumerate_flags.
Qed.

(** C1: for every optional composition string the material scorer returns
    5.0 when the input is absent or empty; otherwise its result is the exact
    value of 5 plus the bonus of the first matching tier of the chain
    (100% cotton, wool or linen +3; else cotton +1.5; else wool or linen +2)
    minus every matching penalty (polyester 1.5, acrylic 2, viscose or rayon
    0.5), clamped to [1, 10]; and the returned score always lies between 1.0
    and 10.0. *)
Theorem material_score_correct :
  calculate_material_score None = 5.0
  /\ calculate_material_score (Some "") = 5.0
  /\ forall composition : option string,
       (exists q : Q,
           float_value (calculate_material_score composition) = Some q
           /\ (q == MaterialSpec.score composition)%Q
           /\ (1 <= q)%Q /\ (q <= 10)%Q)
       /\ (1.0 <=? calculate_material_score composition) = true
       /\ (calculate_material_score composition <=? 10.0) = true.
Proof.
  split; [reflexivity|]. split; [reflexivity|].
  intro composition.
  pose proof (material_score_table composition) as H.
  apply andb_true_iff in H. destruct H as [H Hhi].
  apply andb_true_iff in H. destruct H as [Hq Hlo].
  split; [|split; assumption].
  unfold agrees in Hq.
  destruct (float_value (calculate_material_score composition)) as [q|];
    [|discriminate].
  apply Qeq_bool_iff in Hq. exists q. split; [reflexivity|]. split; [exact Hq|].
  rewrite Hq. clear.
  destruct composition as [[|c s]|]; unfold MaterialSpec.score, MaterialSpec.clamp;
    try (split; discriminate).
  split.
  - apply Q.le_max_l.
  - apply Q.max_lub; [discriminate|apply Q.le_min_l].
Qed.

(* ================================================================== *)
(** * Quality aggregator *)

Lemma tenths_in_range :
  forallb (fun q => (1.0 <=? q) && (q <=? 10.0)) tenths = true.
Proof. vm_compute. reflexivity. Qed.

Lemma float_neq (x y : float) : Prim2SF x <> Prim2SF y -> x <> y.
Proof. intros H E. apply H. now rewrite E. Qed.

(** What [analyze_item] does once the request has passed validation. *)
Lemma analyze_item_valid (request : AnalyzeRequest) :
  both_missing request = false ->
  analyze_item request =
    let brand := or_else (req_brand request) "Unknown" in
    let item_type := lower (or_else (req_item_type request) "t-shirt") in
    let b_score := fst (get_brand_score brand item_type) in
    let brand_data := snd (get_brand_score brand item_type) in
    let m_score := calculate_material_score (req_material_composition request) in
    let q := publish_quality (weighted_quality b_score m_score) in
    wears <- calculate_predicted_wears q item_type ;;
    lifespan <- calculate_lifespan q item_type ;;
    cpw <- truediv (req_price request) (float_of_int wears) ;;
    let category_avg :=
      match dict_get item_type CATEGORY_AVERAGES with
      | Some category_data => avg_score category_data
      | None => 5.0
      end in
    validate_response
      {| quality_score := q;
         predicted_wears := wears;
         predicted_lifespan_months := lifespan;
         cost_per_wear := round cpw 2;
         verdict := generate_verdict q (round cpw 2) category_avg;
         factors := {| brand_score := b_score; material_score := m_score |};
         brand_average := option_map overall_score brand_data;
         category_average := Some category_avg;
         better_alternatives :=
           find_alternatives brand item_type (req_price request) q;
         waitlist_url := "https://cleanseam.ai/join" |}.
Proof.
  unfold both_missing, analyze_item. intro H.
  apply orb_false_iff in H. destruct H as [-> ->].
  cbv zeta.
  destruct (get_brand_score (or_else (req_brand request) "Unknown")
              (lower (or_else (req_item_type request) "t-shirt"))) as [b d].
  reflexivity.
Qed.

Lemma analyze_item_invalid (request : AnalyzeRequest) :
  both_missing request = true -> is_client_error (analyze_item request).
Proof.
  unfold both_missing, analyze_item, is_client_error. intro H.
  destruct (negb (truthy (req_brand request)) && negb (truthy (req_url request))).
  - eexists. reflexivity.
  - cbn [orb] in H. rewrite H. eexists. reflexivity.
Qed.

(** The fields of a response are those computed by the pipeline. *)
Lemma analyze_item_quality (request : AnalyzeRequest) (r : AnalyzeResponse) :
  analyze_item request = Ok r ->
  quality_score r =
    publish_quality (weighted_quality (brand_score (factors r)) (material_score (factors r)))
  /\ calculate_predicted_wears (quality_score r)
       (lower (or_else (req_item_type request) "t-shirt")) = Ok (predicted_wears r).
Proof.
  destruct (both_missing request) eqn:Hm.
  - destruct (analyze_item_invalid request Hm) as [detail ->]. discriminate.
  - rewrite (analyze_item_valid request Hm). cbv zeta.
    destruct (calculate_predicted_wears _ _) as [w|] eqn:Hw; [|discriminate].
    cbn [bind].
    destruct (calculate_lifespan _ _) as [l|]; [|discriminate].
    cbn [bind].
    destruct (truediv _ _) as [c|]; [|discriminate].
    cbn [bind]. unfold validate_response. cbn [quality_score].
    destruct (_ && _); [|discriminate].
    intros [= <-]. cbn [quality_score factors brand_score material_score predicted_wears].
    split; [reflexivity|exact Hw].
Qed.

(** C2 (counterexample): in the program's binary64 arithmetic the weighted
    sum is not the simplified form.  For brand score 3.5 and material score
    5.0 (Zara, dress, no composition) the two sums differ and so do the
    published scores: 4.0 for the program, 3.9 for the simplified form. *)
Lemma simplified_form_differs :
  weighted_quality 3.5 5.0 <> QualitySpec.simplified_quality 3.5 5.0
  /\ publish_quality (weighted_quality 3.5 5.0) = 4.0
  /\ publish_quality (QualitySpec.simplified_quality 3.5 5.0) = 3.9
  /\ fst (get_brand_score "Zara" "dress") = 3.5
  /\ calculate_material_score None = 5.0.
Proof.
  split; [|repeat split; vm_compute; reflexivity].
  apply float_neq. vm_compute. discriminate.
Qed.

(** C2 (amended): in exact arithmetic the weighted sum of the program equals
    the simplified form for all scores; the published quality score is the
    binary64 weighted sum of the program clamped to [1.0, 10.0] and rounded
    to one decimal, so for all scores, and in every response, it is one of
    the numbers k/10 with 10 <= k <= 100 and lies between 1.0 and 10.0. *)
Theorem quality_aggregation :
  (forall b m : Q,
      (QualitySpec.exact_weighted b m == QualitySpec.exact_simplified b m)%Q)
  /\ (forall b m : float,
         exists k, (10 <= k <= 100)%Z
           /\ publish_quality (weighted_quality b m) = QualitySpec.tenth k
           /\ (1.0 <=? publish_quality (weighted_quality b m)) = true
           /\ (publish_quality (weighted_quality b m) <=? 10.0) = true)
  /\ (forall request : AnalyzeRequest,
         match analyze_item request with
         | Ok r =>
             quality_score r =
               publish_quality
                 (weighted_quality (brand_score (factors r)) (material_score (factors r)))
         | Raise _ => True
         end).
Proof.
  split; [|split].
  - intros b m. unfold QualitySpec.exact_weighted, QualitySpec.exact_simplified. ring.
  - intros b m.
    destruct (publish_quality_tenth (weighted_quality b m)) as (k & Hk & E).
    exists k. split; [exact Hk|]. split; [exact E|].
    pose proof (forallb_In _ _ _ tenths_in_range (publish_quality_In (weighted_quality b m))) as H.
    cbv beta in H. apply andb_true_iff in H. exact H.
  - intro request. destruct (analyze_item request) as [r|e] eqn:E; [|exact I].
    now apply analyze_item_quality in E.
Qed.

(* ================================================================== *)
(** * Wear and lifespan predictor, and the [/analyze] pipeline *)

Lemma base_wears_In (category : string) : In (base_wears_of category) wear_baselines.
Proof.
  unfold base_wears_of, wear_baselines.
  destruct (dict_get category CATEGORY_AVERAGES) as [d|] eqn:E; [right|now left].
  apply dict_get_In in E.
  apply (in_map (fun entry => avg_wears (snd entry))) in E. exact E.
Qed.

Lemma base_lifespan_In (category : string) :
  In (base_lifespan_of category) lifespan_baselines.
Proof.
  unfold base_lifespan_of, lifespan_baselines.
  destruct (dict_get category CATEGORY_AVERAGES) as [d|] eqn:E; [right|now left].
  apply dict_get_In in E.
  apply (in_map (fun entry => avg_lifespan (snd entry))) in E. exact E.
Qed.

Lemma predictor_ok_everywhere :
  forallb (fun q =>
    forallb (fun bw =>
      forallb (fun bl => predictor_ok q bw bl) lifespan_baselines)
    wear_baselines) tenths = true.
Proof. vm_compute. reflexivity. Qed.

Lemma tenths_valid :
  forallb (fun q => (0 <=? q) && (q <=? 10)) tenths = true.
Proof. vm_compute. reflexivity. Qed.

(** On a published quality score the predictor returns, and never less
    than 8 wears. *)
Lemma predictor_total (q : float) (category : string) :
  In q tenths ->
  exists wears lifespan,
    calculate_predicted_wears q category = Ok wears
    /\ (8 <= wears)%Z
    /\ nonzero (float_of_int wears) = true
    /\ calculate_lifespan q category = Ok lifespan.
Proof.
  intro Hq.
  pose proof (forallb_In _ _ _ predictor_ok_everywhere Hq) as H. cbv beta in H.
  pose proof (forallb_In _ _ _ H (base_wears_In category)) as H'. cbv beta in H'.
  pose proof (forallb_In _ _ _ H' (base_lifespan_In category)) as Hok.
  clear H H'. unfold predictor_ok in Hok.
  unfold calculate_predicted_wears, calculate_lifespan.
  destruct (int_of_float (float_of_int (base_wears_of category) * (q / 5.0)))
    as [wears|]; [|discriminate].
  apply andb_true_iff in Hok. destruct Hok as [Hok Hl].
  apply andb_true_iff in Hok. destruct Hok as [Hw Hnz].
  destruct (int_of_float (float_of_int (base_lifespan_of category) * (q / 5.0)))
    as [lifespan|]; [|discriminate].
  exists wears, lifespan. repeat split; try assumption.
  now apply Z.leb_le.
Qed.

(** A request that passes validation always gets a response. *)
Lemma analyze_item_total (request : AnalyzeRequest) :
  both_missing request = false -> exists r, analyze_item request = Ok r.
Proof.
  intro Hm. rewrite (analyze_item_valid request Hm). cbv zeta.
  set (item_type := lower (or_else (req_item_type request) "t-shirt")).
  set (q := publish_quality _).
  assert (Hq : In q tenths) by apply publish_quality_In.
  destruct (predictor_total q item_type Hq) as (w & l & -> & _ & Hnz & ->).
  cbn [bind]. unfold truediv. unfold nonzero in Hnz.
  pose proof (forallb_In _ _ _ tenths_valid Hq) as Hv. cbv beta in Hv.
  destruct (Prim2SF (float_of_int w)); try discriminate;
    cbn [bind]; unfold validate_response; cbn [quality_score]; rewrite Hv;
    eexists; reflexivity.
Qed.

(** C3: the request {brand: "Patagonia", item_type: "jacket", price: 120,
    material_composition: "100% cotton"} yields brand_score 9.0,
    material_score 8.0, quality_score 8.7, predicted_wears 208,
    predicted_lifespan_months 62, cost_per_wear 0.58 and the verdict
    "Excellent quality. Above average for this category. Good value per
    wear." *)
Theorem analyze_patagonia_jacket :
  analyze_item patagonia_jacket =
    Ok {| quality_score := 8.7;
          predicted_wears := 208;
          predicted_lifespan_months := 62;
          cost_per_wear := 0.58;
          verdict :=
            "Excellent quality. Above average for this category. Good value per wear.";
          factors := {| brand_score := 9.0; material_score := 8.0 |};
          brand_average := Some 8.2;
          category_average := Some 5.8;
          better_alternatives := [];
          waitlist_url := "https://cleanseam.ai/join" |}.
Proof. vm_compute. reflexivity. Qed.

(** C7: every brand score of the table is at least 1.0 and every wear
    baseline at least 40 (default 60); whatever the raw quality, the
    published quality score gives at least 8 predicted wears for every
    category, the bound being reached (quality 1.0, category "dress"); so a
    response of [/analyze] always has at least 8 predicted wears and the
    endpoint never fails on the division price / predicted_wears. *)
Theorem predicted_wears_positive :
  forallb (fun s => 1.0 <=? s) brand_scores = true
  /\ forallb (fun b => (40 <=? b)%Z) wear_baselines = true
  /\ (forall (raw_quality : float) (category : string),
         exists wears,
           calculate_predicted_wears (publish_quality raw_quality) category = Ok wears
           /\ (8 <= wears)%Z)
  /\ calculate_predicted_wears (publish_quality 1.0) "dress" = Ok 8%Z
  /\ (forall request : AnalyzeRequest,
         match analyze_item request with
         | Ok r => (8 <= predicted_wears r)%Z
         | Raise e => e <> ZeroDivisionError
         end).
Proof.
  split; [vm_compute; reflexivity|].
  split; [vm_compute; reflexivity|].
  split; [|split; [vm_compute; reflexivity|]].
  - intros x category.
    destruct (predictor_total _ category (publish_quality_In x)) as (w & l & Hw & H8 & _).
    now exists w.
  - intro request.
    destruct (analyze_item request) as [r|e] eqn:E.
    + destruct (analyze_item_quality request r E) as [Hq Hw].
      rewrite Hq in Hw.
      destruct (predictor_total _ (lower (or_else (req_item_type request) "t-shirt"))
                  (publish_quality_In
                     (weighted_quality (brand_score (factors r))
                        (material_score (factors r)))))
        as (w & l & Hw' & H8 & _).
      rewrite Hw in Hw'. injection Hw' as ->. exact H8.
    + destruct (both_missing request) eqn:Hm.
      * destruct (analyze_item_invalid request Hm) as [detail Hd].
        rewrite Hd in E. injection E as <-. discriminate.
      * destruct (analyze_item_total request Hm) as [r Hr].
        rewrite Hr in E. discriminate.
Qed.

(** C9 (counterexample): with brand "" (present but empty), item type
    "jeans" and no url, neither pair of fields is absent, yet the request is
    rejected with the client error "Brand or URL is required". *)
Lemma empty_brand_rejected :
  analyze_item empty_brand_request
    = Raise (HTTPException 400 "Brand or URL is required")
  /\ ~ both_absent empty_brand_request.
Proof.
  split; [reflexivity|].
  unfold both_absent, empty_brand_request. cbn.
  intros [[H _]|[H _]]; discriminate.
Qed.

(** C9 (amended): [/analyze] returns a client error exactly when brand and
    url are both absent or empty, or item_type and url are both absent or
    empty (in particular when they are absent); in every other case the
    request goes through scoring and a response is returned. *)
Theorem analyze_validation (request : AnalyzeRequest) :
  (is_client_error (analyze_item request) <-> both_missing request = true)
  /\ ((exists r, analyze_item request = Ok r) <-> both_missing request = false)
  /\ (both_absent request -> both_missing request = true).
Proof.
  split; [|split].
  - split; [|apply analyze_item_invalid].
    intros [detail Hd]. destruct (both_missing request) eqn:Hm; [reflexivity|].
    destruct (analyze_item_total request Hm) as [r Hr]. rewrite Hr in Hd. discriminate.
  - split; [|apply analyze_item_total].
    intros [r Hr]. destruct (both_missing request) eqn:Hm; [|reflexivity].
    destruct (analyze_item_invalid request Hm) as [detail Hd].
    rewrite Hd in Hr. discriminate.
  - unfold both_absent, both_missing.
    intros [[-> ->]|[-> ->]]; cbn; [reflexivity|apply orb_true_r].
Qed.

(* ================================================================== *)
(** * Stable descending sort *)

Section SortFacts.
Context {A : Type} (key : A -> float).

Lemma insert_desc_perm (x : A) (l : list A) :
  Permutation (insert_desc key x l) (x :: l).
Proof.
  induction l as [|y l IH]; cbn [insert_desc]; [reflexivity|].
  destruct (key x <? key y); [|reflexivity].
  rewrite IH. apply perm_swap.
Qed.

Lemma sort_desc_perm (l : list A) : Permutation (sort_desc key l) l.
Proof.
  induction l as [|x l IH]; cbn [sort_desc fold_right]; [reflexivity|].
  fold (sort_desc key l). rewrite insert_desc_perm. now constructor.
Qed.

Lemma sort_desc_In (l : list A) (x : A) : In x (sort_desc key l) <-> In x l.
Proof.
  split; apply Permutation_in;
    [apply sort_desc_perm | apply Permutation_sym, sort_desc_perm].
Qed.

Lemma insert_desc_HdRel (z x : A) (l : list A) :
  score_ge key z x -> HdRel (score_ge key) z l ->
  HdRel (score_ge key) z (insert_desc key x l).
Proof.
  intros Hzx Hzl. destruct l as [|y l]; cbn [insert_desc].
  - now constructor.
  - destruct (key x <? key y); constructor; [|assumption].
    now inversion Hzl.
Qed.

Lemma insert_desc_sorted (x : A) (l : list A) :
  (forall y, In y l -> comparable (key x) (key y) = true) ->
  Sorted (score_ge key) l -> Sorted (score_ge key) (insert_desc key x l).
Proof.
  intros Hc Hs. induction Hs as [|y l Hs IH Hhd]; cbn [insert_desc].
  - repeat constructor.
  - pose proof (Hc y (or_introl eq_refl)) as Hxy. unfold comparable in Hxy.
    destruct (key x <? key y).
    + constructor.
      * apply IH. intros z Hz. apply Hc. now right.
      * now apply insert_desc_HdRel.
    + constructor; [now constructor|]. now constructor.
Qed.

Lemma sort_desc_sorted (l : list A) :
  (forall x y, In x l -> In y l -> comparable (key x) (key y) = true) ->
  Sorted (score_ge key) (sort_desc key l).
Proof.
  induction l as [|x l IH]; intro Hc; cbn [sort_desc fold_right]; [constructor|].
  fold (sort_desc key l). apply insert_desc_sorted.
  - intros y Hy. apply (proj1 (sort_desc_In l y)) in Hy.
    apply Hc; [now left|right; exact Hy].
  - apply IH. intros y z Hy Hz. apply Hc; now right.
Qed.
End SortFacts.

Lemma Sorted_firstn {A : Type} (R : A -> A -> Prop) (n : nat) (l : list A) :
  Sorted R l -> Sorted R (firstn n l).
Proof.
  revert l. induction n as [|n IH]; intros l Hs; [constructor|].
  destruct Hs as [|x l Hs Hhd]; cbn [firstn]; [constructor|].
  constructor; [now apply IH|].
  destruct Hhd as [|y l' Hxy]; [rewrite firstn_nil; constructor|].
  destruct n; cbn [firstn]; now constructor.
Qed.

Lemma In_firstn {A : Type} (n : nat) (l : list A) (x : A) : In x (firstn n l) -> In x l.
Proof.
  revert l. induction n as [|n IH]; intros [|y l]; cbn [firstn In]; try tauto.
  intros [->|H]; [now left|right; now apply IH].
Qed.

(* ================================================================== *)
(** * Brand scorer and alternatives finder *)

Lemma category_score_In (key : string) (record : BrandRecord) (category : string) :
  In (key, record) BRAND_DATA -> In (category_score_of record category) brand_scores.
Proof.
  intro H. unfold brand_scores. right. apply in_flat_map.
  exists (key, record). split; [exact H|]. cbn [snd]. unfold category_score_of.
  destruct (dict_get category (category_scores record)) as [s|] eqn:E; [right|now left].
  apply dict_get_In in E. apply (in_map snd) in E. exact E.
Qed.

Lemma get_brand_score_In (brand category : string) :
  In (fst (get_brand_score brand category)) brand_scores.
Proof.
  unfold get_brand_score.
  destruct (dict_get (strip (lower brand)) BRAND_DATA) as [record|] eqn:E; cbn [fst].
  - apply dict_get_In in E. eapply category_score_In. exact E.
  - now left.
Qed.

Lemma brand_scores_comparable :
  forallb (fun x => forallb (comparable x) brand_scores) brand_scores = true.
Proof. vm_compute. reflexivity. Qed.

Lemma brand_score_comparable (x y : float) :
  In x brand_scores -> In y brand_scores -> comparable x y = true.
Proof.
  intros Hx Hy.
  pose proof (forallb_In _ _ _ brand_scores_comparable Hx) as H. cbv beta in H.
  exact (forallb_In _ _ _ H Hy).
Qed.

(** Two entries of [BRAND_DATA] with different keys have different names. *)
Lemma brand_names_distinct :
  forallb (fun e1 =>
    forallb (fun e2 =>
      String.eqb (fst e1) (fst e2) || negb (String.eqb (name (snd e1)) (name (snd e2))))
      BRAND_DATA) BRAND_DATA = true.
Proof. vm_compute. reflexivity. Qed.

Lemma brand_name_distinct (k1 k2 : string) (r1 r2 : BrandRecord) :
  In (k1, r1) BRAND_DATA -> In (k2, r2) BRAND_DATA -> k1 <> k2 -> name r1 <> name r2.
Proof.
  intros H1 H2 Hk.
  pose proof (forallb_In _ _ _ brand_names_distinct H1) as H. cbv beta in H.
  pose proof (forallb_In _ _ _ H H2) as H'. cbn [fst snd] in H'.
  apply orb_true_iff in H'. destruct H' as [H'|H'].
  - apply String.eqb_eq in H'. contradiction.
  - apply negb_true_iff, String.eqb_neq in H'. exact H'.
Qed.

(** The candidates kept by the loop of [find_alternatives]. *)
Lemma alternative_of_In (brand category : string) (current_score : float)
    (a : Alternative) :
  In a (flat_map (alternative_of brand category current_score) BRAND_DATA) ->
  exists key record,
    In (key, record) BRAND_DATA
    /\ key <> lower brand
    /\ alt_brand a = name record
    /\ alt_score a = category_score_of record category
    /\ (current_score + 0.5 <? alt_score a) = true.
Proof.
  intro H. apply in_flat_map in H. destruct H as ([key record] & Hin & Ha).
  unfold alternative_of in Ha.
  destruct (String.eqb_spec key (lower brand)) as [_|Hne]; [destruct Ha|].
  destruct (current_score + 0.5 <? category_score_of record category) eqn:Hlt;
    [|destruct Ha].
  destruct Ha as [<-|[]]. exists key, record. cbn [alt_brand alt_score].
  repeat split; assumption.
Qed.

(** C8: with the brand name lower-cased and trimmed, the brand scorer
    returns (5.0, no record) for every brand absent from the table, and for a
    brand of the table the score of the category when the brand has one,
    else its overall score, together with the record; in particular
    ("zara", "jeans") gives 3.2, ("zara", "unknownCategory") gives 3.5 and
    ("notabrand", "jeans") gives (5.0, no record). *)
Theorem get_brand_score_correct :
  (forall brand category : string,
      match dict_get (strip (lower brand)) BRAND_DATA with
      | None => get_brand_score brand category = (5.0, None)
      | Some record =>
          get_brand_score brand category =
            (match dict_get category (category_scores record) with
             | Some score => score
             | None => overall_score record
             end, Some record)
      end)
  /\ (forall brand category : string,
         ~ In (strip (lower brand)) (map fst BRAND_DATA) ->
         get_brand_score brand category = (5.0, None))
  /\ fst (get_brand_score "zara" "jeans") = 3.2
  /\ fst (get_brand_score "zara" "unknownCategory") = 3.5
  /\ get_brand_score "notabrand" "jeans" = (5.0, None)
  /\ fst (get_brand_score "  ZARA " "jeans") = 3.2.
Proof.
  split; [|split; [|repeat split; vm_compute; reflexivity]].
  - intros brand category. unfold get_brand_score, category_score_of.
    destruct (dict_get (strip (lower brand)) BRAND_DATA); reflexivity.
  - intros brand category H. unfold get_brand_score.
    now rewrite (dict_get_None _ _ H).
Qed.

(** C5 (counterexample): for the queried brand "zara", category "dress"
    and current score 4.0 the result is Patagonia 8.2, Levi's 6.5, COS 6.5:
    the last two scores are equal, so the list is not strictly descending. *)
Lemma alternatives_tie :
  map (fun a => (alt_brand a, alt_score a)) (find_alternatives "zara" "dress" 20 4.0)
    = [("Patagonia", 8.2); ("Levi's", 6.5); ("COS", 6.5)]
  /\ ~ Sorted (score_gt alt_score) (find_alternatives "zara" "dress" 20 4.0).
Proof.
  split; [vm_compute; reflexivity|].
  intro H.
  assert (E : find_alternatives "zara" "dress" 20 4.0 =
              [ {| alt_brand := "Patagonia"; alt_score := 8.2;
                   alt_typical_price_range := "$80-250" |};
                {| alt_brand := "Levi's"; alt_score := 6.5;
                   alt_typical_price_range := "$40-100" |};
                {| alt_brand := "COS"; alt_score := 6.5;
                   alt_typical_price_range := "$40-100" |} ])
    by (vm_compute; reflexivity).
  rewrite E in H. clear E.
  inversion H as [|a l Hs Hhd]; subst. clear H.
  inversion Hs as [|a l Hs' Hhd']; subst.
  inversion Hhd' as [|b l Hgt]; subst.
  unfold score_gt in Hgt. cbn [alt_score] in Hgt.
  vm_compute in Hgt. discriminate.
Qed.

(** C5 (amended): for every queried brand string, category and current
    score, the result of the alternatives finder has at most 3 entries; each
    entry is a brand of the table whose key differs from the lower-cased
    queried string, its score being the category score of that brand
    (overall score as fallback) and exceeding the current score + 0.5; no
    entry bears the name of the table entry found under the lower-cased
    queried string; and the scores are in non-increasing order. *)
Theorem find_alternatives_correct (brand category : string)
    (price current_score : float) :
  (List.length (find_alternatives brand category price current_score) <= 3)%nat
  /\ (forall a, In a (find_alternatives brand category price current_score) ->
        exists key record,
          In (key, record) BRAND_DATA
          /\ key <> lower brand
          /\ alt_brand a = name record
          /\ alt_score a = category_score_of record category
          /\ (current_score + 0.5 <? alt_score a) = true)
  /\ (forall a queried,
        In a (find_alternatives brand category price current_score) ->
        dict_get (lower brand) BRAND_DATA = Some queried ->
        alt_brand a <> name queried)
  /\ Sorted (score_ge alt_score) (find_alternatives brand category price current_score).
Proof.
  unfold find_alternatives.
  set (candidates := flat_map (alternative_of brand category current_score) BRAND_DATA).
  assert (Hcand : forall a, In a (firstn 3 (sort_desc alt_score candidates)) ->
                            In a candidates).
  { intros a Ha. apply In_firstn in Ha.
    exact (proj1 (sort_desc_In alt_score candidates a) Ha). }
  split; [apply firstn_le_length|]. split; [|split].
  - intros a Ha. apply alternative_of_In. now apply Hcand.
  - intros a queried Ha Hq.
    destruct (alternative_of_In _ _ _ _ (Hcand a Ha))
      as (key & record & Hin & Hne & -> & _).
    apply dict_get_In in Hq. exact (brand_name_distinct _ _ _ _ Hin Hq Hne).
  - apply Sorted_firstn. apply sort_desc_sorted. intros x y Hx Hy.
    destruct (alternative_of_In _ _ _ _ Hx) as (kx & rx & Hinx & _ & _ & -> & _).
    destruct (alternative_of_In _ _ _ _ Hy) as (ky & ry & Hiny & _ & _ & -> & _).
    apply brand_score_comparable; eapply category_score_In; eassumption.
Qed.

(* ================================================================== *)
(** * Truncation in the predictor *)

Lemma int_of_float_infinite (x : float) :
  float_value x = None -> exists e, int_of_float x = Raise e.
Proof.
  unfold float_value, int_of_float.
  destruct (Prim2SF x); try discriminate; intros _; eexists; reflexivity.
Qed.

Lemma int_of_float_value (x : float) (n : Z) :
  int_of_float x = Ok n -> exists v, float_value x = Some v /\ n = Qtrunc v.
Proof.
  intro H. destruct (float_value x) as [v|] eqn:E.
  - exists v. split; [reflexivity|].
    rewrite (int_of_float_trunc x v E) in H. now injection H.
  - destruct (int_of_float_infinite x E) as [e He]. rewrite He in H. discriminate.
Qed.

Lemma scaled_baselines_nonneg :
  forallb (fun q =>
    forallb (fun b => nonneg_finite (float_of_int b * (q / 5.0)))
      (wear_baselines ++ lifespan_baselines)) tenths = true.
Proof. vm_compute. reflexivity. Qed.

Lemma scaled_baseline_floor (q : float) (base : Z) :
  In q tenths -> In base (wear_baselines ++ lifespan_baselines) ->
  exists v, float_value (float_of_int base * (q / 5.0)) = Some v
            /\ (0 <= v)%Q
            /\ int_of_float (float_of_int base * (q / 5.0)) = Ok (Qfloor v).
Proof.
  intros Hq Hb.
  pose proof (forallb_In _ _ _ scaled_baselines_nonneg Hq) as H. cbv beta in H.
  pose proof (forallb_In _ _ _ H Hb) as Hn. cbv beta in Hn. clear H.
  unfold nonneg_finite in Hn.
  destruct (float_value (float_of_int base * (q / 5.0))) as [v|] eqn:E; [|discriminate].
  apply Qle_bool_iff in Hn. exists v. split; [reflexivity|]. split; [exact Hn|].
  rewrite (int_of_float_trunc _ v E). now rewrite Qtrunc_nonneg.
Qed.

Lemma table_scores_nonneg :
  forallb (fun s =>
    forallb (fun b => nonneg_finite (float_of_int b * (s / 5.0))) wear_baselines)
    brand_scores = true.
Proof. vm_compute. reflexivity. Qed.

Lemma table_score_floor (s : float) (base : Z) :
  In s brand_scores -> In base wear_baselines ->
  exists v, float_value (float_of_int base * (s / 5.0)) = Some v
            /\ int_of_float (float_of_int base * (s / 5.0)) = Ok (Qfloor v).
Proof.
  intros Hs Hb.
  pose proof (forallb_In _ _ _ table_scores_nonneg Hs) as H. cbv beta in H.
  pose proof (forallb_In _ _ _ H Hb) as Hn. cbv beta in Hn. clear H.
  unfold nonneg_finite in Hn.
  destruct (float_value (float_of_int base * (s / 5.0))) as [v|] eqn:E; [|discriminate].
  apply Qle_bool_iff in Hn. exists v. split; [reflexivity|].
  rewrite (int_of_float_trunc _ v E). now rewrite Qtrunc_nonneg.
Qed.

(** Outside the scores the endpoints pass, [int()] is not the floor: for
    quality score -0.125 and the unknown category "scarf" the scaled
    baseline is 60 * (-0.125 / 5.0) = -1.5; the predictor returns -1,
    whereas floor(-1.5) = -2. *)
Remark negative_quality_truncated :
  calculate_predicted_wears (-0.125) "scarf" = Ok (-1)%Z
  /\ float_floor (float_of_int (base_wears_of "scarf") * (-0.125 / 5.0)) = Some (-2)%Z.
Proof. split; vm_compute; reflexivity. Qed.

(** C4 (counterexample): in exact arithmetic the formula
    floor(baseline * quality_score / 5.0) fails at requests the API accepts.
    Wool jeans of an unknown brand are published with quality score 5.6 and
    111 wears, where floor(100 * 5.6 / 5) = 112: in binary64
    5.6 / 5.0 = 1.1199999999999999 and the product stays below 112.  Reading
    the quality score as the exact value of the float does not help: Uniqlo
    jeans are published with quality score 5.3, a float slightly below 5.3,
    and 106 wears, where the floor of 100 times that value over 5 is 105
    (the binary64 product rounds up to 106.0). *)
Lemma exact_floor_differs :
  match analyze_item wool_jeans_request with
  | Ok response =>
      quality_score response = 5.6
      /\ predicted_wears response = 111%Z
      /\ calculate_predicted_wears (quality_score response) "jeans" = Ok 111%Z
  | Raise _ => False
  end
  /\ base_wears_of "jeans" = 100%Z
  /\ PredictorSpec.exact_floor 100 (56 # 10) = 112%Z
  /\ match analyze_item uniqlo_jeans_request with
     | Ok response =>
         quality_score response = 5.3
         /\ predicted_wears response = 106%Z
         /\ calculate_predicted_wears (quality_score response) "jeans" = Ok 106%Z
         /\ option_map (PredictorSpec.exact_floor 100)
                       (float_value (quality_score response)) = Some 105%Z
     | Raise _ => False
     end.
Proof. vm_compute. repeat split; reflexivity. Qed.

(** C4 (amended): for every quality score and category the predictor
    returns [int()] of baseline * (quality_score / 5.0), the quotient and
    the product being the binary64 operations, for wears and for lifespan:
    the truncation toward zero of that product (its floor when it is not
    negative, an error when it is not finite).  For every score the
    endpoints pass, that is every published quality score and every score
    the brand scorer returns, the product is finite and not negative, so the
    result is the floor of the binary64 product.  The baselines are those of
    the category table, 60 wears and 18 months for an unknown category. *)
Theorem predictor_truncation (quality : float) (category : string) :
  match float_value (float_of_int (base_wears_of category) * (quality / 5.0)) with
  | Some v =>
      calculate_predicted_wears quality category
        = Ok (if Qle_bool 0 v then Qfloor v else Qceiling v)
  | None => exists e, calculate_predicted_wears quality category = Raise e
  end
  /\ match float_value (float_of_int (base_lifespan_of category) * (quality / 5.0)) with
     | Some v =>
         calculate_lifespan quality category
           = Ok (if Qle_bool 0 v then Qfloor v else Qceiling v)
     | None => exists e, calculate_lifespan quality category = Raise e
     end
  /\ (forall raw : float,
         exists vw vl,
           float_value (float_of_int (base_wears_of category)
                        * (publish_quality raw / 5.0)) = Some vw
           /\ float_value (float_of_int (base_lifespan_of category)
                           * (publish_quality raw / 5.0)) = Some vl
           /\ calculate_predicted_wears (publish_quality raw) category = Ok (Qfloor vw)
           /\ calculate_lifespan (publish_quality raw) category = Ok (Qfloor vl))
  /\ (forall brand_name : string,
         exists v,
           float_value (float_of_int (base_wears_of category)
                        * (fst (get_brand_score brand_name category) / 5.0)) = Some v
           /\ calculate_predicted_wears (fst (get_brand_score brand_name category))
                category = Ok (Qfloor v))
  /\ match dict_get category CATEGORY_AVERAGES with
     | Some record =>
         base_wears_of category = avg_wears record
         /\ base_lifespan_of category = avg_lifespan record
     | None => base_wears_of category = 60%Z /\ base_lifespan_of category = 18%Z
     end.
Proof.
  unfold calculate_predicted_wears, calculate_lifespan.
  split; [|split; [|split; [|split]]].
  - destruct (float_value _) as [v|] eqn:E.
    + exact (int_of_float_trunc _ v E).
    + exact (int_of_float_infinite _ E).
  - destruct (float_value _) as [v|] eqn:E.
    + exact (int_of_float_trunc _ v E).
    + exact (int_of_float_infinite _ E).
  - intro raw.
    destruct (scaled_baseline_floor (publish_quality raw) (base_wears_of category)
                (publish_quality_In raw)
                (in_or_app _ _ _ (or_introl (base_wears_In category))))
      as (vw & Ew & _ & Hw).
    destruct (scaled_baseline_floor (publish_quality raw) (base_lifespan_of category)
                (publish_quality_In raw)
                (in_or_app _ _ _ (or_intror (base_lifespan_In category))))
      as (vl & El & _ & Hl).
    exists vw, vl. repeat split; assumption.
  - intro brand_name.
    exact (table_score_floor _ _ (get_brand_score_In brand_name category)
             (base_wears_In category)).
  - unfold base_wears_of, base_lifespan_of.
    destruct (dict_get category CATEGORY_AVERAGES); split; reflexivity.
Qed.

(* ================================================================== *)
(** * Brand comparator *)

Lemma for_each_Forall2 {A B : Type} (f : A -> result B) (P : A -> B -> Prop)
    (l : list A) :
  (forall a, In a l -> exists b, f a = Ok b /\ P a b) ->
  exists bs, for_each f l = Ok bs /\ Forall2 P l bs.
Proof.
  induction l as [|a l IH]; intro H; cbn [for_each].
  - exists []. split; [reflexivity|constructor].
  - destruct (H a (or_introl eq_refl)) as (b & -> & Hb).
    destruct IH as (bs & -> & Hbs); [intros a' Ha'; apply H; now right|].
    exists (b :: bs). split; [reflexivity|now constructor].
Qed.

Lemma Forall2_In_r {A B : Type} (P : A -> B -> Prop) (l : list A) (bs : list B) (b : B) :
  Forall2 P l bs -> In b bs -> exists a, In a l /\ P a b.
Proof.
  induction 1 as [|a b' l bs Hab _ IH]; cbn [In]; [tauto|].
  intros [<-|Hb].
  - exists a. split; [now left|assumption].
  - destruct (IH Hb) as (a' & Ha' & Hp). exists a'. split; [now right|assumption].
Qed.

Lemma improvement_ok_everywhere :
  forallb (fun s1 =>
    forallb (fun s2 =>
      forallb (fun b => improvement_ok s1 s2 b) wear_baselines)
    brand_scores) brand_scores = true.
Proof. vm_compute. reflexivity. Qed.

Lemma improvement_ok_at (s1 s2 : float) (category : string) :
  In s1 brand_scores -> In s2 brand_scores ->
  improvement_ok s1 s2 (base_wears_of category) = true.
Proof.
  intros H1 H2.
  pose proof (forallb_In _ _ _ improvement_ok_everywhere H1) as H. cbv beta in H.
  pose proof (forallb_In _ _ _ H H2) as H'. cbv beta in H'.
  exact (forallb_In _ _ _ H' (base_wears_In category)).
Qed.

(** The loop body of [compare_brands] always returns an entry. *)
Lemma compare_entry_total (category brand_name : string) :
  exists entry,
    compare_entry category brand_name = Ok entry /\ scored_as category brand_name entry.
Proof.
  pose proof (improvement_ok_at _ _ category
                (get_brand_score_In brand_name category)
                (get_brand_score_In brand_name category)) as Hok.
  unfold improvement_ok in Hok. unfold compare_entry, scored_as.
  destruct (get_brand_score brand_name category) as [score brand_data].
  cbn [fst snd] in *. unfold calculate_predicted_wears at 1.
  destruct (int_of_float (float_of_int (base_wears_of category) * (score / 5.0)))
    as [wears|] eqn:E; [|discriminate].
  cbn [bind]. eexists. split; [reflexivity|].
  cbn [cb_score cb_name cb_predicted_wears]. repeat split. exact E.
Qed.

Lemma improvement_total (category b1 b2 : string) (e1 e2 : ComparedBrand) :
  scored_as category b1 e1 -> scored_as category b2 e2 ->
  exists ratio v,
    int_truediv (cb_predicted_wears e1) (cb_predicted_wears e2) = Ok ratio
    /\ float_value ((ratio - 1.0) * 100.0) = Some v
    /\ improvement_of (cb_predicted_wears e1) (cb_predicted_wears e2) = Ok (Qtrunc v).
Proof.
  intros (Hs1 & _ & Hw1) (Hs2 & _ & Hw2).
  assert (H1 : In (cb_score e1) brand_scores)
    by (rewrite Hs1; apply get_brand_score_In).
  assert (H2 : In (cb_score e2) brand_scores)
    by (rewrite Hs2; apply get_brand_score_In).
  pose proof (improvement_ok_at _ _ category H1 H2) as Hok.
  unfold improvement_ok in Hok. unfold calculate_predicted_wears in Hw1, Hw2.
  rewrite Hw1, Hw2 in Hok. unfold improvement_of in *.
  destruct (int_truediv (cb_predicted_wears e1) (cb_predicted_wears e2))
    as [ratio|]; [|discriminate].
  cbn [bind] in *.
  destruct (int_of_float ((ratio - 1.0) * 100.0)) as [n|] eqn:En; [|discriminate].
  destruct (int_of_float_value _ _ En) as (v & Hv & ->).
  exists ratio, v. repeat split; assumption.
Qed.

Lemma last_In {A : Type} (l : list A) (d : A) : l <> [] -> In (last l d) l.
Proof.
  induction l as [|a l IH]; [congruence|]. intros _.
  destruct l as [|b l]; [now left|].
  right. apply IH. discriminate.
Qed.

(** What [compare_brands] returns for two brands or more. *)
Lemma compare_brands_result (brands : list string) (category : string) :
  (List.length brands <? 2)%nat = false ->
  exists entries best worst ratio v,
    Forall2 (scored_as category) brands entries
    /\ Permutation (sort_desc cb_score entries) entries
    /\ Sorted (score_ge cb_score) (sort_desc cb_score entries)
    /\ hd_error (sort_desc cb_score entries) = Some best
    /\ last (sort_desc cb_score entries) best = worst
    /\ int_truediv (cb_predicted_wears best) (cb_predicted_wears worst) = Ok ratio
    /\ float_value ((ratio - 1.0) * 100.0) = Some v
    /\ compare_brands brands category =
         Ok {| cmp_category := category;
               cmp_brands := sort_desc cb_score entries;
               cmp_recommendation :=
                 (cb_name best ++ " offers best value with "
                  ++ str_of_int (Qtrunc v) ++ "% more predicted wears")%string |}.
Proof.
  intro Hlen. unfold compare_brands. rewrite Hlen.
  destruct (for_each_Forall2 (compare_entry category) (scored_as category) brands)
    as (entries & -> & Hall); [intros b _; apply compare_entry_total|].
  cbn [bind].
  assert (Hscored : forall e, In e (sort_desc cb_score entries) ->
                              exists b, In b brands /\ scored_as category b e).
  { intros e He. apply (proj1 (sort_desc_In cb_score entries e)) in He.
    exact (Forall2_In_r _ _ _ _ Hall He). }
  assert (Hsorted : Sorted (score_ge cb_score) (sort_desc cb_score entries)).
  { apply sort_desc_sorted. intros x y Hx Hy.
    destruct (Forall2_In_r _ _ _ _ Hall Hx) as (bx & _ & -> & _).
    destruct (Forall2_In_r _ _ _ _ Hall Hy) as (by' & _ & -> & _).
    apply brand_score_comparable; apply get_brand_score_In. }
  pose proof (sort_desc_perm cb_score entries) as Hperm.
  assert (Hne : sort_desc cb_score entries <> []).
  { intro E. rewrite E in Hperm. apply Permutation_nil in Hperm. subst entries.
    inversion Hall; subst. discriminate. }
  remember (sort_desc cb_score entries) as results eqn:Eres.
  destruct results as [|best rest]; [congruence|].
  destruct (Hscored best (or_introl eq_refl)) as (b1 & _ & H1).
  destruct (Hscored (last (best :: rest) best) (last_In _ _ Hne)) as (b2 & _ & H2).
  destruct (improvement_total category b1 b2 _ _ H1 H2) as (ratio & v & Hr & Hv & Himp).
  rewrite Himp. cbn [bind].
  exists entries, best, (last (best :: rest) best), ratio, v.
  rewrite <- Eres. repeat split; assumption.
Qed.

(** C6 (counterexample): comparing "patagonia" and "levis" for "jacket"
    gives 216 and 168 predicted wears; ((216 / 168) - 1) * 100 is about
    28.57, which rounds to 29, but the recommendation says 28. *)
Lemma improvement_is_truncated :
  compare_brands ["patagonia"; "levis"] "jacket" =
    Ok {| cmp_category := "jacket";
          cmp_brands :=
            [ {| cb_name := "Patagonia"; cb_score := 9.0;
                 cb_typical_price := "$80-250"; cb_predicted_wears := 216 |};
              {| cb_name := "Levi's"; cb_score := 7.0;
                 cb_typical_price := "$40-100"; cb_predicted_wears := 168 |} ];
          cmp_recommendation :=
            "Patagonia offers best value with 28% more predicted wears" |}
  /\ rounded_improvement 216 168 = Some 29%Z.
Proof. split; vm_compute; reflexivity. Qed.

(** C6 (amended): with fewer than 2 brands [/compare] returns the client
    error and nothing else; with 2 brands or more it always returns a
    result: each brand is scored by the brand scorer (category score,
    overall score as fallback, 5.0 for an unknown brand) and given its
    predicted wears, the entries are sorted by non-increasing score, and the
    recommendation is "<best> offers best value with <N>% more predicted
    wears" where best and worst are the first and last entries and N is the
    truncation toward zero of ((best_wears / worst_wears) - 1) * 100
    evaluated in binary64. *)
Theorem compare_brands_correct (brands : list string) (category : string) :
  if (List.length brands <? 2)%nat
  then compare_brands brands category
       = Raise (HTTPException 400 "Need at least 2 brands to compare")
  else exists entries best worst ratio v,
      Forall2 (scored_as category) brands entries
      /\ Permutation (sort_desc cb_score entries) entries
      /\ Sorted (score_ge cb_score) (sort_desc cb_score entries)
      /\ hd_error (sort_desc cb_score entries) = Some best
      /\ last (sort_desc cb_score entries) best = worst
      /\ int_truediv (cb_predicted_wears best) (cb_predicted_wears worst) = Ok ratio
      /\ float_value ((ratio - 1.0) * 100.0) = Some v
      /\ compare_brands brands category =
           Ok {| cmp_category := category;
                 cmp_brands := sort_desc cb_score entries;
                 cmp_recommendation :=
                   (cb_name best ++ " offers best value with "
                    ++ str_of_int (Qtrunc v) ++ "% more predicted wears")%string |}.
Proof.
  destruct (List.length brands <? 2)%nat eqn:Hlen.
  - unfold compare_brands. now rewrite Hlen.
  - now apply compare_brands_result.
Qed.

(* ================================================================== *)
(** * Letter case of the category *)








(* ================================================================== *)
(** * Two further observations *)

(** [find_alternatives] compares keys with [brand.lower()], without the
    [strip()] of [get_brand_score]: a brand given with surrounding blanks is
    found by the scorer and can be listed as its own alternative. *)
Remark untrimmed_brand_is_its_own_alternative :
  match analyze_item {| req_brand := Some " Patagonia";
                        req_item_type := Some "jacket";
                        req_price := 120;
                        req_currency := "USD";
                        req_material_composition := Some "polyester";
                        req_url := None |} with
  | Ok response =>
      brand_score (factors response) = 9.0
      /\ quality_score response = 7.3
      /\ map alt_brand (better_alternatives response) = ["Patagonia"]
  | Raise _ => False
  end.
Proof. vm_compute. repeat split; reflexivity. Qed.

(** The improvement is truncated after binary64 rounding: 120 wears against
    100 is announced as 19% more, since (120 / 100 - 1) * 100 evaluates to
    19.999999999999996. *)
Remark twenty_percent_is_announced_as_nineteen :
  option_map cmp_recommendation
    (match compare_brands ["cos"; "nobrand"] "jeans" with
     | Ok response => Some response
     | Raise _ => None
     end)
  = Some "COS offers best value with 19% more predicted wears".
Proof. vm_compute. reflexivity. Qed.

(* ================================================================== *)
(** * Further properties of [/analyze] *)

Lemma float_in_In (x : float) (l : list float) : float_in x l = true -> In x l.
Proof.
  unfold float_in. intro H. apply existsb_exists in H.
  destruct H as (y & Hy & E). apply FloatAxioms.Leibniz.eqb_spec in E. now subst y.
Qed.

Lemma material_score_In (composition : option string) :
  In (calculate_material_score composition) material_scores.
Proof.
  apply float_in_In.
  destruct composition as [[|c s]|];
    [vm_compute; reflexivity | | vm_compute; reflexivity].
  unfold calculate_material_score.
  generalize (lower (String c s)); intro text.
  flags_of text. clear text c s.
  enumerate_flags.
Qed.

Lemma reachable_quality_In (brand category : string) (composition : option string) :
  In (publish_quality
        (weighted_quality (fst (get_brand_score brand category))
           (calculate_material_score composition)))
     reachable_qualities.
Proof.
  unfold reachable_qualities. apply in_flat_map.
  exists (fst (get_brand_score brand category)).
  split; [apply get_brand_score_In|].
  apply (in_map (fun m => publish_quality (weighted_quality _ m))).
  apply material_score_In.
Qed.

Lemma category_average_In (item_type : string) :
  In (category_average_of item_type) category_average_values.
Proof.
  unfold category_average_of, category_average_values.
  destruct (dict_get item_type CATEGORY_AVERAGES) as [d|] eqn:E; [right|now left].
  apply dict_get_In in E.
  apply (in_map (fun entry => avg_score (snd entry))) in E. exact E.
Qed.

(** Each field of a response, as the pipeline computes it. *)
Lemma analyze_item_fields (request : AnalyzeRequest) (r : AnalyzeResponse) :
  analyze_item request = Ok r ->
  quality_score r =
    publish_quality
      (weighted_quality
         (fst (get_brand_score (or_else (req_brand request) "Unknown")
                 (lower (or_else (req_item_type request) "t-shirt"))))
         (calculate_material_score (req_material_composition request)))
  /\ calculate_predicted_wears (quality_score r)
       (lower (or_else (req_item_type request) "t-shirt")) = Ok (predicted_wears r)
  /\ calculate_lifespan (quality_score r)
       (lower (or_else (req_item_type request) "t-shirt"))
     = Ok (predicted_lifespan_months r)
  /\ verdict r =
       generate_verdict (quality_score r) (cost_per_wear r)
         (category_average_of (lower (or_else (req_item_type request) "t-shirt")))
  /\ category_average r =
       Some (category_average_of (lower (or_else (req_item_type request) "t-shirt")))
  /\ brand_average r =
       option_map overall_score
         (snd (get_brand_score (or_else (req_brand request) "Unknown")
                 (lower (or_else (req_item_type request) "t-shirt"))))
  /\ better_alternatives r =
       find_alternatives (or_else (req_brand request) "Unknown")
         (lower (or_else (req_item_type request) "t-shirt"))
         (req_price request) (quality_score r).
Proof.
  destruct (both_missing request) eqn:Hm.
  - destruct (analyze_item_invalid request Hm) as [detail ->]. discriminate.
  - rewrite (analyze_item_valid request Hm). cbv zeta.
    destruct (calculate_predicted_wears _ _) as [w|] eqn:Hw; [|discriminate].
    cbn [bind].
    destruct (calculate_lifespan _ _) as [l|] eqn:Hl; [|discriminate].
    cbn [bind].
    destruct (truediv _ _) as [c|]; [|discriminate].
    cbn [bind]. unfold validate_response. cbn [quality_score].
    destruct (_ && _); [|discriminate].
    intros [= <-].
    cbn [quality_score predicted_wears predicted_lifespan_months verdict
         cost_per_wear category_average brand_average better_alternatives].
    repeat split; assumption.
Qed.

Lemma reachable_qualities_range :
  forallb (fun q => (1.0 <=? q) && (q <=? 8.7)) reachable_qualities = true.
Proof. vm_compute. reflexivity. Qed.

Lemma reachable_predictions_bounded :
  forallb (fun q =>
    forallb (fun bw =>
      forallb (fun bl => predictions_within 8 260 3 83 q bw bl) lifespan_baselines)
    wear_baselines) reachable_qualities = true.
Proof. vm_compute. reflexivity. Qed.

(** X1: the quality score of every response lies between 1.0 and 8.7: with
    the scores of the brand table (at most 9.0) and the values of the
    material scorer (at most 8.0) the upper part of the scale is never
    published.  Both bounds are reached: a Patagonia jacket of 100% cotton
    is published with 8.7, a Shein t-shirt of polyester, acrylic and rayon
    with 1.0. *)
Theorem published_quality_range :
  (forall request : AnalyzeRequest,
      match analyze_item request with
      | Ok r => (1.0 <=? quality_score r) = true /\ (quality_score r <=? 8.7) = true
      | Raise _ => True
      end)
  /\ match analyze_item patagonia_jacket with
     | Ok r => quality_score r = 8.7
     | Raise _ => False
     end
  /\ match analyze_item shein_tshirt_request with
     | Ok r => quality_score r = 1.0
     | Raise _ => False
     end.
Proof.
  split; [|split; vm_compute; reflexivity].
  intro request. destruct (analyze_item request) as [r|e] eqn:E; [|exact I].
  destruct (analyze_item_fields request r E) as (Hq & _).
  rewrite Hq. apply andb_true_iff.
  exact (forallb_In _ _ _ reachable_qualities_range (reachable_quality_In _ _ _)).
Qed.

(** X2: in every response the predicted wears lie between 8 and 260 and the
    predicted lifespan between 3 and 83 months; in particular the lifespan
    is never 0. *)
Theorem predictions_bounded (request : AnalyzeRequest) :
  match analyze_item request with
  | Ok r =>
      (8 <= predicted_wears r <= 260)%Z /\ (3 <= predicted_lifespan_months r <= 83)%Z
  | Raise _ => True
  end.
Proof.
  destruct (analyze_item request) as [r|e] eqn:E; [|exact I].
  destruct (analyze_item_fields request r E) as (Hq & Hw & Hl & _).
  set (item_type := lower (or_else (req_item_type request) "t-shirt")) in *.
  assert (Hin : In (quality_score r) reachable_qualities)
    by (rewrite Hq; apply reachable_quality_In).
  pose proof (forallb_In _ _ _ reachable_predictions_bounded Hin) as H.
  cbv beta in H.
  pose proof (forallb_In _ _ _ H (base_wears_In item_type)) as H'. cbv beta in H'.
  pose proof (forallb_In _ _ _ H' (base_lifespan_In item_type)) as Hb. clear H H'.
  unfold predictions_within in Hb.
  unfold calculate_predicted_wears in Hw. unfold calculate_lifespan in Hl.
  rewrite Hw, Hl in Hb.
  repeat (apply andb_true_iff in Hb; destruct Hb as [Hb ?]).
  repeat match goal with H : (_ <=? _)%Z = true |- _ => apply Z.leb_le in H end.
  lia.
Qed.

Lemma verdict_extremes_table :
  forallb (fun q =>
    forallb (fun avg =>
      (negb (7.5 <=? q) || (negb (q <? avg - 1.0) && (avg + 1.0 <? q)))
      && (negb (q <? 2.5)
          || (negb (7.5 <=? q) && negb (5.5 <=? q) && negb (4.0 <=? q)
              && negb (2.5 <=? q) && (q <? avg - 1.0))))
      category_average_values) tenths = true.
Proof. vm_compute. reflexivity. Qed.

(** What the verdict says at both ends of the scale, for a published score
    and an average of the category table. *)
Lemma generate_verdict_extremes (q cost avg : float) :
  In q tenths -> In avg category_average_values ->
  ((7.5 <=? q) = true ->
   prefix "Excellent quality. Above average for this category. "
     (generate_verdict q cost avg) = true)
  /\ ((q <? 2.5) = true ->
      prefix "Poor quality. Below average for this category. "
        (generate_verdict q cost avg) = true).
Proof.
  intros Hq Havg.
  pose proof (forallb_In _ _ _ verdict_extremes_table Hq) as H. cbv beta in H.
  pose proof (forallb_In _ _ _ H Havg) as Ht. cbv beta in Ht. clear H.
  apply andb_true_iff in Ht. destruct Ht as [Hhi Hlo].
  unfold generate_verdict. split; intro Hc.
  - rewrite Hc in *. cbn [negb orb] in Hhi.
    apply andb_true_iff in Hhi. destruct Hhi as [H1 H2].
    apply negb_true_iff in H1. rewrite H1, H2.
    destruct (cost <? 1.0); [|destruct (cost <? 2.0)]; reflexivity.
  - rewrite Hc in Hlo. cbn [negb orb] in Hlo.
    repeat (apply andb_true_iff in Hlo; destruct Hlo as [Hlo ?]).
    repeat match goal with H : negb _ = true |- _ => apply negb_true_iff in H end.
    repeat match goal with H : (_ <=? _) = false |- _ => rewrite H; clear H end.
    match goal with H : (_ <? _) = true |- _ => rewrite H end.
    destruct (cost <? 1.0); [|destruct (cost <? 2.0)]; reflexivity.
Qed.

(** X3: in every response a quality score of 7.5 or more gives a verdict
    that begins "Excellent quality. Above average for this category." and a
    score under 2.5 one that begins "Poor quality. Below average for this
    category.": whatever the category, an excellent item is never reported
    as average for it, nor a poor one. *)
Theorem verdict_extremes (request : AnalyzeRequest) :
  match analyze_item request with
  | Ok r =>
      ((7.5 <=? quality_score r) = true ->
       prefix "Excellent quality. Above average for this category. " (verdict r) = true)
      /\ ((quality_score r <? 2.5) = true ->
          prefix "Poor quality. Below average for this category. " (verdict r) = true)
  | Raise _ => True
  end.
Proof.
  destruct (analyze_item request) as [r|e] eqn:E; [|exact I].
  destruct (analyze_item_fields request r E) as (Hq & _ & _ & -> & _).
  apply generate_verdict_extremes; [|apply category_average_In].
  rewrite Hq. apply publish_quality_In.
Qed.

Lemma truthy_or_else (o : option string) (c : ascii) (s : string) :
  truthy (Some (or_else o (String c s))) = true.
Proof. destruct o as [[|c' s']|]; reflexivity. Qed.

Lemma or_else_or_else (o : option string) (c : ascii) (s : string) :
  or_else (Some (or_else o (String c s))) (String c s) = or_else o (String c s).
Proof. destruct o as [[|c' s']|]; reflexivity. Qed.

(** X4: once a request has passed validation, its url and its currency have
    no effect, and a missing (absent or empty) brand or item type counts as
    "Unknown" and "t-shirt": the outcome is that of the request with these
    defaults written out, no url and the default currency. *)
Theorem analysis_ignores_url_and_currency (request : AnalyzeRequest) :
  both_missing request = false ->
  analyze_item request = analyze_item (explicit_request request).
Proof.
  intro Hm.
  assert (Hm' : both_missing (explicit_request request) = false).
  { unfold both_missing, explicit_request. cbn [req_brand req_item_type req_url].
    now rewrite !truthy_or_else. }
  rewrite (analyze_item_valid request Hm), (analyze_item_valid _ Hm').
  unfold explicit_request.
  cbn [req_brand req_item_type req_price req_material_composition].
  now rewrite !or_else_or_else.
Qed.

(** X4 (witness): a request made of a url, a price and a foreign currency. *)
Lemma analysis_ignores_url_and_currency_witness :
  both_missing url_only_request = false
  /\ analyze_item url_only_request = analyze_item (explicit_request url_only_request).
Proof.
  assert (H : both_missing url_only_request = false) by reflexivity.
  split; [exact H | exact (analysis_ignores_url_and_currency url_only_request H)].
Defined.

Lemma neutral_baselines :
  forallb (fun b => match int_of_float (float_of_int b * (5.0 / 5.0)) with
                    | Ok n => (n =? b)%Z
                    | Raise _ => false
                    end) (wear_baselines ++ lifespan_baselines) = true.
Proof. vm_compute. reflexivity. Qed.

(** A score of 5.0 gives back the baselines of the category. *)
Lemma neutral_score_baseline (category : string) :
  calculate_predicted_wears 5.0 category = Ok (base_wears_of category)
  /\ calculate_lifespan 5.0 category = Ok (base_lifespan_of category).
Proof.
  unfold calculate_predicted_wears, calculate_lifespan. split.
  - pose proof (forallb_In _ _ _ neutral_baselines
                  (in_or_app _ _ _ (or_introl (base_wears_In category)))) as H.
    cbv beta in H.
    destruct (int_of_float _) as [n|]; [|discriminate].
    apply Z.eqb_eq in H. now subst n.
  - pose proof (forallb_In _ _ _ neutral_baselines
                  (in_or_app _ _ _ (or_intror (base_lifespan_In category)))) as H.
    cbv beta in H.
    destruct (int_of_float _) as [n|]; [|discriminate].
    apply Z.eqb_eq in H. now subst n.
Qed.

(** X5: a request that passes validation, names a brand the table does not
    know and whose composition scores the neutral 5.0 (none given, for
    instance) gets quality score 5.0, no brand average, and exactly the wear
    and lifespan baselines of its category. *)
Theorem neutral_request_gets_baselines (request : AnalyzeRequest) :
  both_missing request = false ->
  dict_get (strip (lower (or_else (req_brand request) "Unknown"))) BRAND_DATA = None ->
  calculate_material_score (req_material_composition request) = 5.0 ->
  exists r,
    analyze_item request = Ok r
    /\ quality_score r = 5.0
    /\ brand_average r = None
    /\ predicted_wears r
       = base_wears_of (lower (or_else (req_item_type request) "t-shirt"))
    /\ predicted_lifespan_months r
       = base_lifespan_of (lower (or_else (req_item_type request) "t-shirt")).
Proof.
  intros Hm Hb Hmat.
  destruct (analyze_item_total request Hm) as [r Hr]. exists r.
  destruct (analyze_item_fields request r Hr) as (Hq & Hw & Hl & _ & _ & Havg & _).
  unfold get_brand_score in Hq, Havg. rewrite Hb in Hq, Havg. cbn [fst snd] in Hq, Havg.
  rewrite Hmat in Hq.
  assert (E : publish_quality (weighted_quality 5.0 5.0) = 5.0)
    by (vm_compute; reflexivity).
  rewrite E in Hq. rewrite Hq in Hw, Hl.
  destruct (neutral_score_baseline (lower (or_else (req_item_type request) "t-shirt")))
    as [Ew El].
  rewrite Ew in Hw. rewrite El in Hl.
  injection Hw as Hw. injection Hl as Hl.
  repeat split; auto.
Qed.

(** X5 (witness): the url-only request is analysed as an unknown brand. *)
Lemma neutral_request_gets_baselines_witness :
  exists r,
    analyze_item url_only_request = Ok r
    /\ quality_score r = 5.0
    /\ brand_average r = None
    /\ predicted_wears r = 60%Z
    /\ predicted_lifespan_months r = 18%Z.
Proof.
  exact (neutral_request_gets_baselines url_only_request
           eq_refl eq_refl eq_refl).
Defined.

(* ================================================================== *)
(** * Brand names: normal form and look-up *)

Lemma lower_char_idem (c : ascii) : lower_char (lower_char c) = lower_char c.
Proof. destruct c as [[] [] [] [] [] [] [] []]; vm_compute; reflexivity. Qed.

Lemma is_space_lower_char (c : ascii) : is_space (lower_char c) = is_space c.
Proof. destruct c as [[] [] [] [] [] [] [] []]; vm_compute; reflexivity. Qed.

Lemma lower_idem (s : string) : lower (lower s) = lower s.
Proof.
  induction s as [|c s IH]; cbn [lower]; [reflexivity|].
  now rewrite lower_char_idem, IH.
Qed.

Lemma lstrip_lower (s : string) : lstrip (lower s) = lower (lstrip s).
Proof.
  induction s as [|c s IH]; cbn [lower lstrip]; [reflexivity|].
  rewrite is_space_lower_char. destruct (is_space c); [exact IH|reflexivity].
Qed.

Lemma rstrip_lower (s : string) : rstrip (lower s) = lower (rstrip s).
Proof.
  induction s as [|c s IH]; cbn [lower rstrip]; [reflexivity|].
  rewrite IH, is_space_lower_char.
  destruct (rstrip s) as [|a r]; cbn [lower]; [|reflexivity].
  destruct (is_space c); reflexivity.
Qed.

Lemma strip_lower (s : string) : strip (lower s) = lower (strip s).
Proof. unfold strip. now rewrite lstrip_lower, rstrip_lower. Qed.

Lemma lstrip_head (s : string) (c : ascii) (r : string) :
  lstrip s = String c r -> is_space c = false.
Proof.
  induction s as [|a s IH]; cbn [lstrip]; [discriminate|].
  destruct (is_space a) eqn:E; [exact IH|].
  intros [= <- _]. exact E.
Qed.

(** A string without leading blank is left alone by [lstrip], also after
    [rstrip]. *)
Lemma lstrip_rstrip (t : string) : lstrip t = t -> lstrip (rstrip t) = rstrip t.
Proof.
  destruct t as [|c t]; [reflexivity|]. intro H.
  pose proof (lstrip_head _ _ _ H) as Hc.
  cbn [rstrip]. destruct (rstrip t) as [|a r]; rewrite ?Hc; cbn [lstrip];
    now rewrite Hc.
Qed.

Lemma lstrip_idem (s : string) : lstrip (lstrip s) = lstrip s.
Proof.
  induction s as [|c s IH]; cbn [lstrip]; [reflexivity|].
  destruct (is_space c) eqn:E; [exact IH|].
  cbn [lstrip]. now rewrite E.
Qed.

Lemma rstrip_idem (s : string) : rstrip (rstrip s) = rstrip s.
Proof.
  induction s as [|c s IH]; cbn [rstrip]; [reflexivity|].
  destruct (rstrip s) as [|a r] eqn:E.
  - destruct (is_space c) eqn:Ec; cbn [rstrip]; [reflexivity|now rewrite Ec].
  - cbn [rstrip]. cbn [rstrip] in IH. now rewrite IH.
Qed.

Lemma strip_idem (s : string) : strip (strip s) = strip s.
Proof.
  unfold strip. rewrite (lstrip_rstrip (lstrip s) (lstrip_idem s)).
  apply rstrip_idem.
Qed.

(** The key under which a brand name is looked up is in normal form. *)
Lemma brand_key_idem (brand_name : string) :
  strip (lower (strip (lower brand_name))) = strip (lower brand_name).
Proof. now rewrite strip_lower, strip_idem, <- strip_lower, lower_idem. Qed.

Lemma brand_key_lower (brand_name : string) :
  strip (lower (lower brand_name)) = strip (lower brand_name).
Proof. now rewrite lower_idem. Qed.

Lemma brand_key_strip (brand_name : string) :
  strip (lower (strip brand_name)) = strip (lower brand_name).
Proof. now rewrite <- strip_lower, strip_idem, strip_lower. Qed.

(** X6: the brand scorer ignores letter case and surrounding blanks: it
    returns the same score and record for a name, for the name lower-cased,
    for the name trimmed, and for its key. *)
Theorem brand_lookup_ignores_case_and_blanks (brand_name category : string) :
  get_brand_score (lower brand_name) category = get_brand_score brand_name category
  /\ get_brand_score (strip brand_name) category = get_brand_score brand_name category
  /\ get_brand_score (strip (lower brand_name)) category
     = get_brand_score brand_name category.
Proof.
  unfold get_brand_score.
  now rewrite brand_key_lower, brand_key_strip, brand_key_idem.
Qed.

(** X7: [/brand/{name}] answers 404, with the name as it was given in the
    message, exactly when the brand scorer falls back to the neutral
    (5.0, no record); otherwise the profile is that of the record the scorer
    returns, with confidence "medium". *)
Theorem get_brand_agrees_with_scorer (brand_name category : string) :
  match get_brand brand_name with
  | Ok profile =>
      exists record,
        snd (get_brand_score brand_name category) = Some record
        /\ bp_name profile = name record
        /\ bp_overall_score profile = overall_score record
        /\ bp_tier profile = tier record
        /\ bp_category_scores profile = category_scores record
        /\ bp_avg_lifespan_months profile = avg_lifespan_months record
        /\ bp_data_confidence profile = "medium"
  | Raise e =>
      e = HTTPException 404 ("Brand '" ++ brand_name ++ "' not found")%string
      /\ get_brand_score brand_name category = (5.0, None)
  end.
Proof.
  unfold get_brand, get_brand_score.
  destruct (dict_get (strip (lower brand_name)) BRAND_DATA) as [record|].
  - exists record. cbn [snd bp_name bp_overall_score bp_tier bp_category_scores
                         bp_avg_lifespan_months bp_data_confidence].
    repeat split.
  - split; reflexivity.
Qed.

Ltac each_entry H :=
  cbn [In] in H;
  repeat match goal with
         | H' : _ \/ _ |- _ => destruct H' as [H'|H']
         end;
  try contradiction; injection H as <- <-.

(** X8: every key of the brand table finds its own record through
    [/brand], and so does the displayed name of every brand but one: the
    key of "Levi's" is "levis", so the name the API displays for that brand
    is answered 404. *)
Theorem brand_table_round_trip :
  Forall (fun entry =>
            (exists profile,
                get_brand (fst entry) = Ok profile
                /\ bp_name profile = name (snd entry)
                /\ bp_overall_score profile = overall_score (snd entry)
                /\ bp_category_scores profile = category_scores (snd entry))
            /\ (fst entry <> "levis" -> get_brand (name (snd entry)) = get_brand (fst entry)))
         BRAND_DATA
  /\ option_map name (dict_get "levis" BRAND_DATA) = Some "Levi's"
  /\ get_brand "Levi's" = Raise (HTTPException 404 "Brand 'Levi's' not found").
Proof.
  split; [|split; vm_compute; reflexivity].
  apply Forall_forall. intros [key record] Hin. unfold BRAND_DATA in Hin.
  each_entry Hin; cbn [fst snd]; (split;
    [ eexists; split; [vm_compute; reflexivity|repeat split]
    | intro Hne; first [ exfalso; apply Hne; reflexivity
                       | vm_compute; reflexivity ] ]).
Qed.

Lemma brand_scores_range :
  forallb (fun s => (1.0 <=? s) && (s <=? 9.0)) brand_scores = true.
Proof. vm_compute. reflexivity. Qed.

(** X9: for every brand name and category the brand scorer returns a score
    between 1.0 and 9.0. *)
Theorem brand_score_range (brand_name category : string) :
  (1.0 <=? fst (get_brand_score brand_name category)) = true
  /\ (fst (get_brand_score brand_name category) <=? 9.0) = true.
Proof.
  apply andb_true_iff.
  exact (forallb_In _ _ _ brand_scores_range (get_brand_score_In brand_name category)).
Qed.

(* ================================================================== *)
(** * Further properties of the alternatives finder *)

(** The entry [find_alternatives] builds for a brand record. *)
Lemma alternative_of_iff (brand category : string) (current_score : float)
    (a : Alternative) :
  In a (flat_map (alternative_of brand category current_score) BRAND_DATA) <->
  exists key record,
    In (key, record) BRAND_DATA
    /\ key <> lower brand
    /\ (current_score + 0.5 <? category_score_of record category) = true
    /\ a = {| alt_brand := name record;
              alt_score := category_score_of record category;
              alt_typical_price_range := get_price_range (tier record) |}.
Proof.
  rewrite in_flat_map. split.
  - intros ([key record] & Hin & Ha). unfold alternative_of in Ha.
    destruct (String.eqb_spec key (lower brand)) as [_|Hne]; [destruct Ha|].
    destruct (current_score + 0.5 <? category_score_of record category) eqn:Hlt;
      [|destruct Ha].
    destruct Ha as [<-|[]]. exists key, record. repeat split; assumption.
  - intros (key & record & Hin & Hne & Hlt & ->).
    exists (key, record). split; [exact Hin|]. unfold alternative_of.
    destruct (String.eqb_spec key (lower brand)) as [E|_]; [contradiction|].
    rewrite Hlt. now left.
Qed.

Lemma find_alternatives_In (brand category : string) (price current_score : float)
    (a : Alternative) :
  In a (find_alternatives brand category price current_score) ->
  In a (flat_map (alternative_of brand category current_score) BRAND_DATA).
Proof.
  unfold find_alternatives. intro H. apply In_firstn in H.
  exact (proj1 (sort_desc_In alt_score _ a) H).
Qed.

Lemma brand_tiers_priced :
  forallb (fun entry =>
             existsb (String.eqb (get_price_range (tier (snd entry)))) brand_price_ranges)
          BRAND_DATA = true.
Proof. vm_compute. reflexivity. Qed.

Lemma brand_price_range_In (key : string) (record : BrandRecord) :
  In (key, record) BRAND_DATA -> In (get_price_range (tier record)) brand_price_ranges.
Proof.
  intro Hin.
  pose proof (forallb_In _ _ _ brand_tiers_priced Hin) as H. cbn [snd] in H.
  apply existsb_exists in H. destruct H as (x & Hx & E).
  apply String.eqb_eq in E. now rewrite E.
Qed.

Lemma for_each_Ok {A B : Type} (f : A -> result B) (l : list A) (bs : list B) :
  for_each f l = Ok bs -> Forall2 (fun a b => f a = Ok b) l bs.
Proof.
  revert bs. induction l as [|a l IH]; intros bs; cbn [for_each].
  - intros [= <-]. constructor.
  - destruct (f a) as [b|] eqn:Ea; [|discriminate]. cbn [bind].
    destruct (for_each f l) as [bs'|]; [|discriminate]. cbn [bind].
    intros [= <-]. constructor; [exact Ea|now apply IH].
Qed.

(** The entries of a comparison are those the loop computed, one per
    brand. *)
Lemma compare_brands_entries (brands : list string) (category : string)
    (r : CompareResponse) :
  compare_brands brands category = Ok r ->
  exists entries,
    Forall2 (fun b e => compare_entry category b = Ok e) brands entries
    /\ cmp_brands r = sort_desc cb_score entries
    /\ cmp_category r = category.
Proof.
  unfold compare_brands.
  destruct (List.length brands <? 2)%nat; [discriminate|].
  destruct (for_each (compare_entry category) brands) as [entries|] eqn:E;
    [|discriminate].
  cbn [bind]. destruct (sort_desc cb_score entries) as [|best rest] eqn:Es;
    [discriminate|].
  destruct (improvement_of _ _) as [n|]; [|discriminate]. cbn [bind].
  intros [= <-]. exists entries. cbn [cmp_brands cmp_category].
  split; [now apply for_each_Ok|]. split; [now rewrite Es|reflexivity].
Qed.

Lemma compare_entry_price (category brand_name : string) (e : ComparedBrand) :
  compare_entry category brand_name = Ok e ->
  In (cb_typical_price e) ("Unknown" :: brand_price_ranges).
Proof.
  unfold compare_entry, get_brand_score.
  destruct (dict_get (strip (lower brand_name)) BRAND_DATA) as [record|] eqn:E.
  - destruct (calculate_predicted_wears _ _) as [w|]; [|discriminate].
    cbn [bind]. intros [= <-]. cbn [cb_typical_price]. right.
    apply dict_get_In in E. eapply brand_price_range_In. exact E.
  - destruct (calculate_predicted_wears _ _) as [w|]; [|discriminate].
    cbn [bind]. intros [= <-]. now left.
Qed.

(** X10: every tier of the brand table has a price range, so the fallback
    range "$30-80" of [get_price_range] is never shown: an alternative always
    carries "$10-50", "$40-100" or "$80-250", and a compared brand one of
    these or "Unknown" (brand not in the table). *)
Theorem price_range_never_default :
  (forall (brand category : string) (price current_score : float) (a : Alternative),
      In a (find_alternatives brand category price current_score) ->
      In (alt_typical_price_range a) brand_price_ranges)
  /\ (forall (brands : list string) (category : string) (r : CompareResponse),
         compare_brands brands category = Ok r ->
         Forall (fun e => In (cb_typical_price e) ("Unknown" :: brand_price_ranges))
                (cmp_brands r))
  /\ ~ In "$30-80" ("Unknown" :: brand_price_ranges).
Proof.
  split; [|split].
  - intros brand category price current_score a Ha.
    apply find_alternatives_In, alternative_of_iff in Ha.
    destruct Ha as (key & record & Hin & _ & _ & ->).
    cbn [alt_typical_price_range]. eapply brand_price_range_In. exact Hin.
  - intros brands category r Hr.
    destruct (compare_brands_entries brands category r Hr) as (entries & Hall & -> & _).
    apply Forall_forall. intros e He.
    apply (proj1 (sort_desc_In cb_score entries e)) in He.
    destruct (Forall2_In_r _ _ _ _ Hall He) as (b & _ & Hb).
    eapply compare_entry_price. exact Hb.
  - cbn. intuition discriminate.
Qed.

(** ** The three listed are the best *)

Lemma Sorted_StronglySorted_on {A : Type} (R : A -> A -> Prop) (l : list A) :
  (forall x y z, In x l -> In y l -> In z l -> R x y -> R y z -> R x z) ->
  Sorted R l -> StronglySorted R l.
Proof.
  intros Ht Hs. induction Hs as [|a l Hs IH Hhd]; [constructor|].
  assert (Hl : StronglySorted R l).
  { apply IH. intros x y z Hx Hy Hz. apply Ht; now right. }
  constructor; [exact Hl|].
  destruct Hhd as [|b l Hab]; [constructor|].
  constructor; [exact Hab|].
  apply StronglySorted_inv in Hl. destruct Hl as [_ Hb].
  rewrite Forall_forall in *. intros x Hx.
  apply (Ht a b x); [now left|right; now left|right; now right|exact Hab|now apply Hb].
Qed.

Lemma StronglySorted_app_rel {A : Type} (R : A -> A -> Prop) (l1 l2 : list A) :
  StronglySorted R (l1 ++ l2) ->
  forall x y, In x l1 -> In y l2 -> R x y.
Proof.
  induction l1 as [|a l1 IH]; cbn [app In]; [tauto|].
  intros Hs x y [<-|Hx] Hy; apply StronglySorted_inv in Hs; destruct Hs as [Hs Ha].
  - rewrite Forall_forall in Ha. apply Ha. apply in_or_app. now right.
  - now apply (IH Hs).
Qed.

Lemma brand_scores_transitive :
  forallb (fun x =>
    forallb (fun y =>
      forallb (fun z => negb ((y <=? x) && (z <=? y)) || (z <=? x)) brand_scores)
    brand_scores) brand_scores = true.
Proof. vm_compute. reflexivity. Qed.

Lemma brand_score_transitive (x y z : float) :
  In x brand_scores -> In y brand_scores -> In z brand_scores ->
  (y <=? x) = true -> (z <=? y) = true -> (z <=? x) = true.
Proof.
  intros Hx Hy Hz Hyx Hzy.
  pose proof (forallb_In _ _ _ brand_scores_transitive Hx) as H. cbv beta in H.
  pose proof (forallb_In _ _ _ H Hy) as H'. cbv beta in H'.
  pose proof (forallb_In _ _ _ H' Hz) as Ht. cbv beta in Ht.
  rewrite Hyx, Hzy in Ht. exact Ht.
Qed.

Lemma candidate_score_In (brand category : string) (current_score : float)
    (a : Alternative) :
  In a (flat_map (alternative_of brand category current_score) BRAND_DATA) ->
  In (alt_score a) brand_scores.
Proof.
  intro H. apply alternative_of_iff in H.
  destruct H as (key & record & Hin & _ & _ & ->). cbn [alt_score].
  eapply category_score_In. exact Hin.
Qed.

(** X11: the alternatives listed are the best ones.  A brand of the table
    other than the queried one whose category score exceeds the current
    score + 0.5 is either listed, or left out of a full list of three whose
    entries all score at least as much. *)
Theorem alternatives_are_the_best (brand category : string)
    (price current_score : float) (key : string) (record : BrandRecord) :
  dict_get key BRAND_DATA = Some record ->
  key <> lower brand ->
  (current_score + 0.5 <? category_score_of record category) = true ->
  In {| alt_brand := name record;
        alt_score := category_score_of record category;
        alt_typical_price_range := get_price_range (tier record) |}
     (find_alternatives brand category price current_score)
  \/ (List.length (find_alternatives brand category price current_score) = 3%nat
      /\ forall a, In a (find_alternatives brand category price current_score) ->
                   (category_score_of record category <=? alt_score a) = true).
Proof.
  intros Hrec Hne Hlt. apply dict_get_In in Hrec.
  set (c := {| alt_brand := name record;
               alt_score := category_score_of record category;
               alt_typical_price_range := get_price_range (tier record) |}).
  unfold find_alternatives.
  set (candidates := flat_map (alternative_of brand category current_score) BRAND_DATA).
  assert (Hc : In c candidates).
  { apply alternative_of_iff. exists key, record. repeat split; assumption. }
  set (sorted := sort_desc alt_score candidates).
  assert (Hin : forall a, In a sorted -> In a candidates).
  { intros a Ha. exact (proj1 (sort_desc_In alt_score candidates a) Ha). }
  assert (Hs : StronglySorted (score_ge alt_score) sorted).
  { apply Sorted_StronglySorted_on.
    - intros x y z Hx Hy Hz. unfold score_ge.
      apply brand_score_transitive;
        eapply candidate_score_In; apply Hin; eassumption.
    - apply sort_desc_sorted. intros x y Hx Hy.
      apply brand_score_comparable; eapply candidate_score_In; eassumption. }
  assert (Hcs : In c sorted).
  { exact (proj2 (sort_desc_In alt_score candidates c) Hc). }
  rewrite <- (firstn_skipn 3 sorted) in Hcs, Hs.
  apply in_app_or in Hcs. destruct Hcs as [Hfirst|Hrest]; [now left|right].
  split.
  - apply firstn_length_le.
    destruct sorted as [|a1 [|a2 [|a3 rest]]]; cbn [skipn] in Hrest;
      try contradiction; cbn [List.length]; lia.
  - intros a Ha.
    exact (StronglySorted_app_rel _ _ _ Hs a c Ha Hrest).
Qed.

(** X11 (witness): for "zara", "dress" and current score 4.0, Uniqlo (5.8)
    qualifies but is left out behind Patagonia, Levi's and COS. *)
Lemma alternatives_are_the_best_witness :
  exists record,
    dict_get "uniqlo" BRAND_DATA = Some record
    /\ (In {| alt_brand := name record;
              alt_score := category_score_of record "dress";
              alt_typical_price_range := get_price_range (tier record) |}
           (find_alternatives "zara" "dress" 20 4.0)
        \/ (List.length (find_alternatives "zara" "dress" 20 4.0) = 3%nat
            /\ forall a, In a (find_alternatives "zara" "dress" 20 4.0) ->
                         (category_score_of record "dress" <=? alt_score a) = true)).
Proof.
  eexists. split; [reflexivity|].
  apply (alternatives_are_the_best "zara" "dress" 20 4.0 "uniqlo");
    [reflexivity | vm_compute; discriminate | vm_compute; reflexivity].
Defined.

(** ** Distinct alternatives, and none for the best items *)

Lemma brand_display_names_distinct :
  NoDup (map (fun entry => name (snd entry)) BRAND_DATA).
Proof.
  cbn [map BRAND_DATA snd name].
  repeat (constructor;
          [cbn [In]; intro H;
           repeat (destruct H as [H|H]; [discriminate H|]); exact H|]).
  constructor.
Qed.

Lemma candidate_names_In (brand category : string) (current_score : float)
    (l : list (string * BrandRecord)) (x : string) :
  In x (map alt_brand (flat_map (alternative_of brand category current_score) l)) ->
  In x (map (fun entry => name (snd entry)) l).
Proof.
  induction l as [|[key record] l IH]; cbn [flat_map map In]; [tauto|].
  rewrite map_app, in_app_iff. intros [H|H]; [left|right; now apply IH].
  unfold alternative_of in H.
  destruct (key =? lower brand)%string; [destruct H|].
  destruct (current_score + 0.5 <? category_score_of record category);
    [|destruct H].
  cbn [map In alt_brand] in H. destruct H as [<-|[]]. reflexivity.
Qed.

Lemma candidate_names_distinct (brand category : string) (current_score : float)
    (l : list (string * BrandRecord)) :
  NoDup (map (fun entry => name (snd entry)) l) ->
  NoDup (map alt_brand (flat_map (alternative_of brand category current_score) l)).
Proof.
  induction l as [|[key record] l IH]; cbn [flat_map map]; [constructor|].
  intro Hnd. apply NoDup_cons_iff in Hnd. destruct Hnd as [Hnotin Hnd].
  rewrite map_app. unfold alternative_of at 1.
  destruct (key =? lower brand)%string; [now apply IH|].
  destruct (current_score + 0.5 <? category_score_of record category);
    [|now apply IH].
  cbn [map app alt_brand]. constructor; [|now apply IH].
  intro Hin. apply Hnotin. eapply candidate_names_In. exact Hin.
Qed.

Lemma NoDup_firstn_of {A : Type} (n : nat) (l : list A) :
  NoDup l -> NoDup (firstn n l).
Proof.
  revert l. induction n as [|n IH]; intros [|a l] Hnd; cbn [firstn];
    try constructor.
  - apply NoDup_cons_iff in Hnd. intro Hin. apply (proj1 Hnd).
    eapply In_firstn. exact Hin.
  - apply IH. now apply NoDup_cons_iff in Hnd.
Qed.

(** X12: no brand is suggested twice: the names of the alternatives of one
    answer are pairwise distinct, and there are at most three. *)
Theorem alternatives_distinct (brand category : string)
    (price current_score : float) :
  NoDup (map alt_brand (find_alternatives brand category price current_score))
  /\ (List.length (find_alternatives brand category price current_score) <= 3)%nat.
Proof.
  unfold find_alternatives. split; [|apply firstn_le_length].
  rewrite <- firstn_map. apply NoDup_firstn_of.
  eapply Permutation_NoDup.
  - apply Permutation_map, Permutation_sym, sort_desc_perm.
  - apply candidate_names_distinct, brand_display_names_distinct.
Qed.

Lemma flat_map_nil {A B : Type} (f : A -> list B) (l : list A) :
  (forall x, In x l -> f x = []) -> flat_map f l = [].
Proof.
  induction l as [|a l IH]; cbn [flat_map]; [reflexivity|].
  intro H. rewrite (H a (or_introl eq_refl)), IH; [reflexivity|].
  intros x Hx. apply H. now right.
Qed.

Lemma top_scores_unbeaten :
  forallb (fun q =>
    forallb (fun s => negb (8.5 <=? q) || negb (q + 0.5 <? s)) brand_scores)
    tenths = true.
Proof. vm_compute. reflexivity. Qed.

Lemma no_candidate_above (brand category : string) (q : float) :
  In q tenths -> (8.5 <=? q) = true ->
  flat_map (alternative_of brand category q) BRAND_DATA = [].
Proof.
  intros Hq Hge. apply flat_map_nil. intros [key record] Hin.
  unfold alternative_of.
  destruct (key =? lower brand)%string; [reflexivity|].
  pose proof (forallb_In _ _ _ top_scores_unbeaten Hq) as H. cbv beta in H.
  pose proof (forallb_In _ _ _ H (category_score_In key record category Hin)) as H'.
  cbv beta in H'. rewrite Hge in H'. cbn [negb orb] in H'.
  apply negb_true_iff in H'. now rewrite H'.
Qed.

(** X13: an answer whose quality score is 8.5 or more suggests no
    alternative: no brand of the table scores more than 9.0 in any
    category. *)
Theorem no_alternative_for_top_quality (request : AnalyzeRequest) :
  match analyze_item request with
  | Ok response =>
      (8.5 <=? quality_score response) = true ->
      better_alternatives response = []
  | Raise _ => True
  end.
Proof.
  destruct (analyze_item request) as [response|e] eqn:E; [|exact I].
  intro Hge.
  destruct (analyze_item_fields request response E)
    as (Hq & _ & _ & _ & _ & _ & Halt).
  rewrite Halt.
  unfold find_alternatives.
  rewrite no_candidate_above; [reflexivity| |exact Hge].
  rewrite Hq. apply publish_quality_In.
Qed.

(* ================================================================== *)
(** * Further properties of the predictors *)

Lemma scaled_returns :
  forallb (fun q =>
    forallb (fun base => is_ok (int_of_float (float_of_int base * (q / 5.0))))
            all_baselines) tenths = true.
Proof. vm_compute. reflexivity. Qed.

Lemma scaled_spec (q : float) (base : Z) :
  In q tenths -> In base all_baselines ->
  int_of_float (float_of_int base * (q / 5.0)) = Ok (scaled base q).
Proof.
  intros Hq Hb.
  pose proof (forallb_In _ _ _ scaled_returns Hq) as H. cbv beta in H.
  pose proof (forallb_In _ _ _ H Hb) as H'. cbv beta in H'.
  unfold scaled. destruct (int_of_float _); [reflexivity|discriminate].
Qed.

Lemma base_wears_all (category : string) : In (base_wears_of category) all_baselines.
Proof. apply in_or_app. left. apply base_wears_In. Qed.

Lemma base_lifespan_all (category : string) :
  In (base_lifespan_of category) all_baselines.
Proof. apply in_or_app. right. apply base_lifespan_In. Qed.

Lemma predictors_scaled (q : float) (category : string) :
  In q tenths ->
  calculate_predicted_wears q category = Ok (scaled (base_wears_of category) q)
  /\ calculate_lifespan q category = Ok (scaled (base_lifespan_of category) q).
Proof.
  intro Hq. unfold calculate_predicted_wears, calculate_lifespan. split.
  - apply scaled_spec; [exact Hq|apply base_wears_all].
  - apply scaled_spec; [exact Hq|apply base_lifespan_all].
Qed.

Lemma response_predictions (request : AnalyzeRequest) (r : AnalyzeResponse) :
  analyze_item request = Ok r ->
  In (quality_score r) tenths
  /\ predicted_wears r =
       scaled (base_wears_of (lower (or_else (req_item_type request) "t-shirt")))
              (quality_score r)
  /\ predicted_lifespan_months r =
       scaled (base_lifespan_of (lower (or_else (req_item_type request) "t-shirt")))
              (quality_score r).
Proof.
  intro E.
  destruct (analyze_item_fields request r E) as (Hq & Hw & Hl & _).
  assert (Hin : In (quality_score r) tenths)
    by (rewrite Hq; apply publish_quality_In).
  destruct (predictors_scaled (quality_score r)
              (lower (or_else (req_item_type request) "t-shirt")) Hin) as [Hw' Hl'].
  rewrite Hw' in Hw. rewrite Hl' in Hl.
  split; [exact Hin|]. split; congruence.
Qed.

Lemma scaled_monotone :
  forallb (fun base =>
    let table := map (fun q => (q, scaled base q)) tenths in
    forallb (fun p1 =>
      forallb (fun p2 => negb (fst p1 <=? fst p2) || (snd p1 <=? snd p2)%Z)
              table) table) all_baselines = true.
Proof. vm_compute. reflexivity. Qed.

Lemma scaled_mono (base : Z) (q1 q2 : float) :
  In base all_baselines -> In q1 tenths -> In q2 tenths ->
  (q1 <=? q2) = true -> (scaled base q1 <= scaled base q2)%Z.
Proof.
  intros Hb Hq1 Hq2 Hle.
  pose proof (forallb_In _ _ _ scaled_monotone Hb) as H. cbv beta zeta in H.
  apply (in_map (fun q => (q, scaled base q))) in Hq1, Hq2.
  pose proof (forallb_In _ _ _ H Hq1) as H'. cbv beta in H'.
  pose proof (forallb_In _ _ _ H' Hq2) as H''. cbv beta in H''.
  cbn [fst snd] in H''. rewrite Hle in H''. cbn [negb orb] in H''.
  now apply Z.leb_le.
Qed.

(** X14: for one item type a better answer never predicts less: if the
    quality score of one answer is at most that of another answer for the
    same (lower-cased) item type, so are its predicted wears and its
    predicted lifespan. *)
Theorem better_quality_never_predicts_less
    (request1 request2 : AnalyzeRequest) (r1 r2 : AnalyzeResponse) :
  analyze_item request1 = Ok r1 ->
  analyze_item request2 = Ok r2 ->
  lower (or_else (req_item_type request1) "t-shirt")
  = lower (or_else (req_item_type request2) "t-shirt") ->
  (quality_score r1 <=? quality_score r2) = true ->
  (predicted_wears r1 <= predicted_wears r2)%Z
  /\ (predicted_lifespan_months r1 <= predicted_lifespan_months r2)%Z.
Proof.
  intros E1 E2 Hcat Hle.
  destruct (response_predictions request1 r1 E1) as (Hq1 & -> & ->).
  destruct (response_predictions request2 r2 E2) as (Hq2 & -> & ->).
  rewrite Hcat.
  split; apply scaled_mono; try assumption;
    [apply base_wears_all|apply base_lifespan_all].
Qed.

(** X14 (witness): wool jeans of an unknown brand (5.6) against Patagonia
    jeans without a material (7.2). *)
Lemma better_quality_never_predicts_less_witness :
  exists r1 r2,
    analyze_item wool_jeans_request = Ok r1
    /\ analyze_item patagonia_jeans_request = Ok r2
    /\ (predicted_wears r1 <= predicted_wears r2)%Z
    /\ (predicted_lifespan_months r1 <= predicted_lifespan_months r2)%Z.
Proof.
  eexists. eexists. split; [vm_compute; reflexivity|].
  split; [vm_compute; reflexivity|].
  apply (better_quality_never_predicts_less
           wool_jeans_request patagonia_jeans_request);
    vm_compute; reflexivity.
Defined.

Lemma score_index_In (k : Z) : (10 <= k <= 100)%Z -> In k score_indices.
Proof.
  intro H. unfold score_indices.
  replace k with (Z.of_nat (Z.to_nat (k - 10)) + 10)%Z by lia.
  apply (in_map (fun n => (Z.of_nat n + 10)%Z)). apply in_seq. lia.
Qed.

Lemma scaled_near_exact :
  forallb (fun k =>
    forallb (fun base =>
      (base * k / 50 - 1 <=? scaled base (QualitySpec.tenth k))%Z
      && (scaled base (QualitySpec.tenth k) <=? base * k / 50)%Z)
      all_baselines) score_indices = true.
Proof. vm_compute. reflexivity. Qed.

Lemma scaled_near (k base : Z) :
  (10 <= k <= 100)%Z -> In base all_baselines ->
  (base * k / 50 - 1 <= scaled base (QualitySpec.tenth k) <= base * k / 50)%Z.
Proof.
  intros Hk Hb.
  pose proof (forallb_In _ _ _ scaled_near_exact (score_index_In k Hk)) as H.
  cbv beta in H.
  pose proof (forallb_In _ _ _ H Hb) as H'. cbv beta in H'.
  apply andb_true_iff in H'. destruct H' as [H1 H2].
  apply Z.leb_le in H1, H2. split; assumption.
Qed.

(** X15: the predictions are the exact ones or one less.  An answer with
    quality score k/10 for an item type with baseline b predicts
    floor(b * k / 50) wears (months), the value of b * (k/10) / 5 rounded
    down, or one less than that; the loss happens: wool jeans of an unknown
    brand score 5.6 and get 111 wears where 100 * 5.6 / 5 is 112. *)
Theorem predictions_exact_or_one_less :
  (forall (request : AnalyzeRequest),
      match analyze_item request with
      | Ok response =>
          exists k,
            (10 <= k <= 100)%Z
            /\ quality_score response = QualitySpec.tenth k
            /\ (let base :=
                  base_wears_of (lower (or_else (req_item_type request) "t-shirt")) in
                (base * k / 50 - 1 <= predicted_wears response <= base * k / 50)%Z)
            /\ (let base :=
                  base_lifespan_of (lower (or_else (req_item_type request) "t-shirt")) in
                (base * k / 50 - 1 <= predicted_lifespan_months response
                 <= base * k / 50)%Z)
      | Raise _ => True
      end)
  /\ (exists response,
         analyze_item wool_jeans_request = Ok response
         /\ quality_score response = QualitySpec.tenth 56
         /\ base_wears_of "jeans" = 100%Z
         /\ predicted_wears response = 111%Z
         /\ (100 * 56 / 50 = 112)%Z).
Proof.
  split.
  - intro request.
    destruct (analyze_item request) as [response|e] eqn:E; [|exact I].
    destruct (response_predictions request response E) as (_ & Hw & Hl).
    destruct (analyze_item_fields request response E) as (Hq & _).
    destruct (publish_quality_tenth
                (weighted_quality
                   (fst (get_brand_score (or_else (req_brand request) "Unknown")
                           (lower (or_else (req_item_type request) "t-shirt"))))
                   (calculate_material_score (req_material_composition request))))
      as (k & Hk & Hpk).
    exists k. rewrite Hpk in Hq. split; [exact Hk|]. split; [exact Hq|].
    cbv zeta. rewrite Hw, Hl, Hq.
    split; apply scaled_near;
      [exact Hk|apply base_wears_all|exact Hk|apply base_lifespan_all].
  - eexists. split; [vm_compute; reflexivity|].
    vm_compute. repeat split; reflexivity.
Qed.

(* ================================================================== *)
(** * Further properties of the brand comparison *)

Lemma improvement_nonneg_everywhere :
  forallb (fun base =>
    let table := map (fun s => (s, scaled base s)) brand_scores in
    forallb (fun p1 =>
      forallb (fun p2 =>
        negb (fst p2 <=? fst p1)
        || match improvement_of (snd p1) (snd p2) with
           | Ok n => (0 <=? n)%Z
           | Raise _ => false
           end) table) table) wear_baselines = true.
Proof. vm_compute. reflexivity. Qed.

Lemma scored_as_scaled (category b : string) (e : ComparedBrand) :
  scored_as category b e ->
  In (cb_score e) brand_scores
  /\ cb_predicted_wears e = scaled (base_wears_of category) (cb_score e).
Proof.
  intros (Hs & _ & Hw). split; [rewrite Hs; apply get_brand_score_In|].
  unfold calculate_predicted_wears in Hw. unfold scaled. now rewrite Hw.
Qed.

Lemma improvement_nonneg (category b1 b2 : string) (e1 e2 : ComparedBrand) :
  scored_as category b1 e1 -> scored_as category b2 e2 ->
  (cb_score e2 <=? cb_score e1) = true ->
  exists n, improvement_of (cb_predicted_wears e1) (cb_predicted_wears e2) = Ok n
            /\ (0 <= n)%Z.
Proof.
  intros H1 H2 Hle.
  destruct (scored_as_scaled _ _ _ H1) as [Hs1 ->].
  destruct (scored_as_scaled _ _ _ H2) as [Hs2 ->].
  pose proof (forallb_In _ _ _ improvement_nonneg_everywhere
                (base_wears_In category)) as H. cbv beta zeta in H.
  apply (in_map (fun s => (s, scaled (base_wears_of category) s))) in Hs1, Hs2.
  pose proof (forallb_In _ _ _ H Hs1) as H'. cbv beta in H'.
  pose proof (forallb_In _ _ _ H' Hs2) as H''. cbv beta in H''.
  cbn [fst snd] in H''. rewrite Hle in H''. cbn [negb orb] in H''.
  destruct (improvement_of _ _) as [n|]; [|discriminate].
  exists n. split; [reflexivity|now apply Z.leb_le].
Qed.

Lemma brand_score_le_refl (x : float) : In x brand_scores -> (x <=? x) = true.
Proof.
  intro Hx. pose proof (brand_score_comparable x x Hx Hx) as H.
  unfold comparable in H. destruct (x <? x); exact H.
Qed.

(** X16: a comparison of two brands or more answers with one entry per
    requested brand, no entry scoring more than the first, and announces an
    improvement that is never negative. *)
Theorem comparison_shape (brands : list string) (category : string) :
  (2 <= List.length brands)%nat ->
  exists response best rest n,
    compare_brands brands category = Ok response
    /\ List.length (cmp_brands response) = List.length brands
    /\ cmp_brands response = best :: rest
    /\ Forall (fun e => (cb_score e <=? cb_score best) = true) (cmp_brands response)
    /\ cmp_recommendation response =
         (cb_name best ++ " offers best value with " ++ str_of_int n
          ++ "% more predicted wears")%string
    /\ (0 <= n)%Z.
Proof.
  intro Hlen.
  assert (Hlt : (List.length brands <? 2)%nat = false) by (apply Nat.ltb_ge; lia).
  destruct (compare_brands_result brands category Hlt)
    as (entries & best & worst & ratio & v & Hall & Hperm & Hsorted & Hhd & Hlast
        & Hr & Hv & ->).
  assert (Hscored : forall e, In e (sort_desc cb_score entries) ->
                              exists b, scored_as category b e).
  { intros e He. apply (proj1 (sort_desc_In cb_score entries e)) in He.
    destruct (Forall2_In_r _ _ _ _ Hall He) as (b & _ & Hb). now exists b. }
  assert (Hscore : forall e, In e (sort_desc cb_score entries) ->
                             In (cb_score e) brand_scores).
  { intros e He. destruct (Hscored e He) as (b & Hb).
    now destruct (scored_as_scaled _ _ _ Hb). }
  assert (Hstrong : StronglySorted (score_ge cb_score) (sort_desc cb_score entries)).
  { apply Sorted_StronglySorted_on; [|exact Hsorted].
    intros x y z Hx Hy Hz. unfold score_ge.
    apply brand_score_transitive; now apply Hscore. }
  destruct (sort_desc cb_score entries) as [|best' rest] eqn:Es; [discriminate|].
  cbn [hd_error] in Hhd. apply Some_eq in Hhd. subst best'.
  assert (Hbest : Forall (fun e => (cb_score e <=? cb_score best) = true)
                         (best :: rest)).
  { constructor.
    - apply brand_score_le_refl, Hscore. now left.
    - apply StronglySorted_inv in Hstrong. exact (proj2 Hstrong). }
  assert (Hworst : In worst (best :: rest)).
  { rewrite <- Hlast. apply last_In. discriminate. }
  destruct (Hscored best (or_introl eq_refl)) as (b1 & H1).
  destruct (Hscored worst Hworst) as (b2 & H2).
  destruct (improvement_nonneg category b1 b2 best worst H1 H2) as (n & Hn & Hpos).
  { rewrite Forall_forall in Hbest. now apply Hbest. }
  assert (En : n = Qtrunc v).
  { unfold improvement_of in Hn. rewrite Hr in Hn. cbn [bind] in Hn.
    rewrite (int_of_float_trunc _ _ Hv) in Hn. congruence. }
  exists {| cmp_category := category;
            cmp_brands := best :: rest;
            cmp_recommendation :=
              (cb_name best ++ " offers best value with "
               ++ str_of_int (Qtrunc v) ++ "% more predicted wears")%string |},
         best, rest, n.
  cbn [cmp_brands cmp_recommendation]. subst n.
  repeat split; try assumption; try reflexivity.
  rewrite (Permutation_length Hperm). symmetry.
  exact (Forall2_length Hall).
Qed.

(** X16 (witness): COS, Zara and Patagonia compared for dresses. *)
Lemma comparison_shape_witness :
  exists response best rest n,
    compare_brands ["COS"; "Zara"; "Patagonia"] "dress" = Ok response
    /\ List.length (cmp_brands response) = 3%nat
    /\ cmp_brands response = best :: rest
    /\ Forall (fun e => (cb_score e <=? cb_score best) = true) (cmp_brands response)
    /\ cmp_recommendation response =
         (cb_name best ++ " offers best value with " ++ str_of_int n
          ++ "% more predicted wears")%string
    /\ (0 <= n)%Z.
Proof.
  apply (comparison_shape ["COS"; "Zara"; "Patagonia"] "dress"). cbn. lia.
Defined.

(** ** Brands that are not in the table *)

Lemma sort_desc_neutral {A : Type} (key : A -> float) (l : list A) :
  Forall (fun x => key x = 5.0) l -> sort_desc key l = l.
Proof.
  induction 1 as [|a l Ha Hl IH]; [reflexivity|].
  cbn [sort_desc fold_right]. fold (sort_desc key l). rewrite IH.
  destruct Hl as [|b l Hb Hl]; [reflexivity|].
  cbn [insert_desc]. rewrite Ha, Hb. reflexivity.
Qed.

Lemma for_each_map {A B : Type} (f : A -> result B) (g : A -> B) (l : list A) :
  Forall (fun a => f a = Ok (g a)) l -> for_each f l = Ok (map g l).
Proof.
  induction 1 as [|a l Ha Hl IH]; [reflexivity|].
  cbn [for_each map]. rewrite Ha. cbn [bind]. rewrite IH. reflexivity.
Qed.

Lemma no_improvement_on_baseline :
  forallb (fun base =>
             match improvement_of base base with
             | Ok n => (n =? 0)%Z
             | Raise _ => false
             end) wear_baselines = true.
Proof. vm_compute. reflexivity. Qed.

(** X17: brands that are not in the table compare as equals.  When no
    requested brand is known, every entry gets the neutral score 5.0, the
    price range "Unknown" and the wear baseline of the category, the entries
    keep the order of the request, and the first brand named is announced
    with "0% more predicted wears". *)
Theorem unknown_brands_compare_equal (brands : list string) (category : string) :
  (2 <= List.length brands)%nat ->
  Forall (fun b => dict_get (strip (lower b)) BRAND_DATA = None) brands ->
  compare_brands brands category =
    Ok {| cmp_category := category;
          cmp_brands :=
            map (fun b => {| cb_name := b;
                             cb_score := 5.0;
                             cb_typical_price := "Unknown";
                             cb_predicted_wears := base_wears_of category |}) brands;
          cmp_recommendation :=
            (hd "" brands ++ " offers best value with 0% more predicted wears")%string |}.
Proof.
  intros Hlen Hunknown.
  set (entry := fun b => {| cb_name := b;
                            cb_score := 5.0;
                            cb_typical_price := "Unknown";
                            cb_predicted_wears := base_wears_of category |}).
  unfold compare_brands.
  replace (List.length brands <? 2)%nat with false
    by (symmetry; apply Nat.ltb_ge; lia).
  rewrite (for_each_map (compare_entry category) entry).
  2:{ eapply Forall_impl; [|exact Hunknown]. cbv beta. intros b Hb.
      unfold compare_entry, get_brand_score. rewrite Hb.
      rewrite (proj1 (neutral_score_baseline category)). reflexivity. }
  cbn [bind]. rewrite sort_desc_neutral.
  2:{ apply Forall_forall. intros e He. apply in_map_iff in He.
      destruct He as (b & <- & _). reflexivity. }
  destruct brands as [|b0 brands]; [cbn in Hlen; lia|].
  cbn [map hd]. fold (map entry brands).
  assert (Hworst : cb_predicted_wears (last (entry b0 :: map entry brands) (entry b0))
                   = base_wears_of category).
  { assert (Hin : In (last (entry b0 :: map entry brands) (entry b0))
                     (map entry (b0 :: brands))).
    { apply last_In. discriminate. }
    apply in_map_iff in Hin. destruct Hin as (b & <- & _). reflexivity. }
  rewrite Hworst. cbn [cb_predicted_wears entry].
  pose proof (forallb_In _ _ _ no_improvement_on_baseline (base_wears_In category))
    as H0. cbv beta in H0.
  destruct (improvement_of (base_wears_of category) (base_wears_of category))
    as [n|]; [|discriminate].
  apply Z.eqb_eq in H0. subst n. cbn [bind]. reflexivity.
Qed.

(** X17 (witness): two made-up brands compared for jeans. *)
Lemma unknown_brands_compare_equal_witness :
  compare_brands ["Acme"; "Globex"] "jeans" =
    Ok {| cmp_category := "jeans";
          cmp_brands :=
            map (fun b => {| cb_name := b;
                             cb_score := 5.0;
                             cb_typical_price := "Unknown";
                             cb_predicted_wears := base_wears_of "jeans" |})
                ["Acme"; "Globex"];
          cmp_recommendation :=
            (hd "" ["Acme"; "Globex"]
             ++ " offers best value with 0% more predicted wears")%string |}.
Proof.
  apply (unknown_brands_compare_equal ["Acme"; "Globex"] "jeans").
  - cbn. lia.
  - repeat constructor.
Defined.

(* ================================================================== *)
(** * The category list *)

Lemma category_names_keys :
  map ce_name list_categories = map fst CATEGORY_AVERAGES.
Proof.
  unfold list_categories. rewrite map_map. apply map_ext.
  intros [cat data]. reflexivity.
Qed.

Lemma category_keys_distinct : NoDup (map fst CATEGORY_AVERAGES).
Proof.
  cbn [map CATEGORY_AVERAGES fst].
  repeat (constructor;
          [cbn [In]; intro H;
           repeat (destruct H as [H|H]; [discriminate H|]); exact H|]).
  constructor.
Qed.

Lemma listed_categories_resolve :
  forallb (fun e =>
             PrimFloat.Leibniz.eqb (category_average_of (ce_name e)) (ce_avg_score e)
             && (base_lifespan_of (ce_name e) =? ce_avg_lifespan_months e)%Z
             && (lower (ce_name e) =? ce_name e)%string)
          list_categories = true.
Proof. vm_compute. reflexivity. Qed.

(** X18: the category list and [/analyze] agree.  Every listed category is
    lower case and listed once.  A response whose lower-cased item type is a
    listed category carries the listed average score as category average,
    and its lifespan is predicted from the listed lifespan baseline; a
    response whose lower-cased item type is not listed has category average
    5.0, and its wears and lifespan are predicted from the defaults 60 and
    18. *)
Theorem category_list_round_trip :
  NoDup (map ce_name list_categories)
  /\ Forall (fun e => lower (ce_name e) = ce_name e) list_categories
  /\ (forall request response,
         analyze_item request = Ok response ->
         let item_type := lower (or_else (req_item_type request) "t-shirt") in
         (forall e,
             In e list_categories -> ce_name e = item_type ->
             category_average response = Some (ce_avg_score e)
             /\ int_of_float (float_of_int (ce_avg_lifespan_months e)
                              * (quality_score response / 5.0))
                = Ok (predicted_lifespan_months response))
         /\ (~ In item_type (map ce_name list_categories) ->
             category_average response = Some 5.0
             /\ int_of_float (float_of_int 60 * (quality_score response / 5.0))
                = Ok (predicted_wears response)
             /\ int_of_float (float_of_int 18 * (quality_score response / 5.0))
                = Ok (predicted_lifespan_months response))).
Proof.
  assert (Hlisted : forall e, In e list_categories ->
            category_average_of (ce_name e) = ce_avg_score e
            /\ base_lifespan_of (ce_name e) = ce_avg_lifespan_months e
            /\ lower (ce_name e) = ce_name e).
  { intros e He.
    pose proof (forallb_In _ _ _ listed_categories_resolve He) as H. cbv beta in H.
    apply andb_true_iff in H. destruct H as [H Hlow].
    apply andb_true_iff in H. destruct H as [Havg Hlife].
    split; [|split].
    - now apply FloatAxioms.Leibniz.eqb_spec.
    - now apply Z.eqb_eq.
    - now apply String.eqb_eq. }
  split; [|split].
  - rewrite category_names_keys. apply category_keys_distinct.
  - apply Forall_forall. intros e He. now destruct (Hlisted e He) as (_ & _ & Hlow).
  - intros request response Hr item_type. subst item_type.
    destruct (analyze_item_fields request response Hr)
      as (_ & Hw & Hl & _ & Havg & _).
    unfold calculate_predicted_wears in Hw. unfold calculate_lifespan in Hl.
    split.
    + intros e He Hname. destruct (Hlisted e He) as (Ha & Hb & _).
      rewrite Hname in Ha, Hb. rewrite <- Ha, <- Hb. split; assumption.
    + intro Hnot. rewrite category_names_keys in Hnot.
      unfold base_wears_of in Hw. unfold base_lifespan_of in Hl.
      unfold category_average_of in Havg.
      rewrite (dict_get_None _ CATEGORY_AVERAGES Hnot) in Hw, Hl, Havg.
      repeat split; assumption.
Qed.

(* ================================================================== *)
(** * Further properties of the material scorer *)

Lemma material_score_lowered (s : string) :
  calculate_material_score (Some s) = calculate_material_score (Some (lower s)).
Proof.
  destruct s as [|c s]; [reflexivity|].
  change (lower (String c s)) with (String (lower_char c) (lower s)).
  unfold calculate_material_score.
  change (String (lower_char c) (lower s)) with (lower (String c s)).
  rewrite lower_idem. reflexivity.
Qed.

(** X19: the material scorer ignores letter case: two compositions with the
    same lower-case form get the same score. *)
Theorem material_score_ignores_case (composition1 composition2 : string) :
  lower composition1 = lower composition2 ->
  calculate_material_score (Some composition1)
  = calculate_material_score (Some composition2).
Proof.
  intro H.
  rewrite (material_score_lowered composition1),
    (material_score_lowered composition2), H.
  reflexivity.
Qed.

(** X19 (witness): "80% WOOL, 20% Polyester" and "80% wool, 20% polyester". *)
Lemma material_score_ignores_case_witness :
  calculate_material_score (Some "80% WOOL, 20% Polyester")
  = calculate_material_score (Some "80% wool, 20% polyester").
Proof.
  apply (material_score_ignores_case
           "80% WOOL, 20% Polyester" "80% wool, 20% polyester").
  vm_compute. reflexivity.
Defined.

Lemma material_scores_range :
  forallb (fun s => (1.0 <=? s) && (s <=? 8.0)) material_scores = true.
Proof. vm_compute. reflexivity. Qed.

(** X20: the material score always lies between 1.0 and 8.0, and both ends
    are reached: the largest bonus gives 8.0 and all penalties together take
    an unboosted composition down to 1.0, so the cap at 10.0 never applies. *)
Theorem material_score_range :
  (forall composition,
      (1.0 <=? calculate_material_score composition) = true
      /\ (calculate_material_score composition <=? 8.0) = true)
  /\ calculate_material_score (Some "100% Linen") = 8.0
  /\ calculate_material_score (Some "polyester, acrylic and rayon") = 1.0.
Proof.
  split; [|split; vm_compute; reflexivity].
  intro composition. apply andb_true_iff.
  exact (forallb_In _ _ _ material_scores_range (material_score_In composition)).
Qed.
